(** * ptp-ip: the Fuji handshake, the Fuji viewfinder widgets and the CLI entry point

    A shallow embedding of
    - [ip/packets_fuji.go]: the Fuji packet shapes and [FujiInitSequence];
    - the viewfinder draw functions of the Fuji X-T1 ([drawFujiBattery3Bars],
      [drawFujiExposureBiasCompensation]);
    - [cmd/main.go]: the exit codes of [main].

    Fixed-width integers are [Z] with the wrap-around written out, byte
    strings are [list Z] with every element in [0, 256), Go's [float64] is the
    kernel's binary64 [float]. *)

From Stdlib Require Import ZArith List String Ascii Bool Lia.
From Stdlib Require Import Floats.PrimFloat Floats.SpecFloat Floats.FloatOps.
From Stdlib Require Import Uint63.
Import ListNotations.
Open Scope Z_scope.

(** ** Fixed-width integers *)

Definition uint16 (z : Z) : Z := z mod 2 ^ 16.
Definition uint32 (z : Z) : Z := z mod 2 ^ 32.

(** Go's conversion to a signed type keeps the low bits and reads them in
    two's complement. *)
Definition int16 (z : Z) : Z := (z + 2 ^ 15) mod 2 ^ 16 - 2 ^ 15.
Definition int32 (z : Z) : Z := (z + 2 ^ 31) mod 2 ^ 32 - 2 ^ 31.

(** [n] bytes of [v], least significant first. *)
Fixpoint le_bytes (n : nat) (v : Z) : list Z :=
  match n with
  | O => []
  | S n' => v mod 256 :: le_bytes n' (v / 256)
  end.

(** The bytes read back least significant first give the value. *)
Fixpoint le_value (bs : list Z) : Z :=
  match bs with
  | [] => 0
  | b :: rest => b + 256 * le_value rest
  end.

Definition is_byte (b : Z) : Prop := 0 <= b < 256.

(** ** Go's [error] values *)

(** An error is the message it carries ([errors.New], [err.Error()]). *)
Record error : Type := errors_New { Error : string }.

(** ** Constants of the packages [ptp] and [ip] that the sources use

    The declarations of these names are outside the translated files: they
    are taken as parameters, and [ptp_standard] gives them the values of the
    PTP standard (ISO 15740) and of PTP/IP. *)

Class PtpConstants : Type := {
  RC_OK : Z;
  RC_SessionAlreadyOpen : Z;
  OC_OpenSession : Z;
  OC_GetDevicePropValue : Z;
  OC_SetDevicePropValue : Z;
  OC_InitiateOpenCapture : Z;
  DP_NoDataOrDataIn : Z;
  DP_DataOut : Z;
  PKT_Invalid : Z;
  PKT_InitCommandRequest : Z;
  OperationResponseCodeAsString : Z -> string
}.

Definition ptp_standard : PtpConstants := {|
  RC_OK := 0x2001;
  RC_SessionAlreadyOpen := 0x201E;
  OC_OpenSession := 0x1002;
  OC_GetDevicePropValue := 0x1015;
  OC_SetDevicePropValue := 0x1016;
  OC_InitiateOpenCapture := 0x101C;
  DP_NoDataOrDataIn := 1;
  DP_DataOut := 2;
  PKT_Invalid := 0;
  PKT_InitCommandRequest := 1;
  OperationResponseCodeAsString := fun code =>
    if code =? 0x2001 then "RC_OK"%string
    else if code =? 0x201E then "RC_SessionAlreadyOpen"%string
    else if code =? 0x2019 then "RC_DeviceBusy"%string
    else "unknown"%string
|}.

(** ** [ip/packets_fuji.go]: constants (lines 11-53) *)

Definition DPC_Fuji_UseInitSequence : Z := 0xDF01.
Definition DPC_Fuji_AppVersion : Z := 0xDF24.
Definition FR_Fuji_DeviceBusy : Z := 0x00002019.
Definition FR_Fuji_InvalidParameter : Z := 0x0000201D.
Definition OC_Fuji_GetDeviceInfo : Z := 0x902B.
Definition PM_Fuji_InitSequence : Z := 0x00000005.
Definition PM_Fuji_AppVersion : Z := 0x00020001.
Definition PV_Fuji : Z := 0x8F53E4F2.
Definition RC_Fuji_DevicePropValue : Z := 0x1015.

(** ** [FujiInitCommandRequestPacket] (lines 73-111) *)

Module FujiInitCommandRequestPacket.

Record t : Type := Build {
  ProtocolVersion : Z;      (* ProtocolVersion, a uint32 *)
  GUID : list Z;            (* uuid.UUID, the 16 bytes of a [16]byte *)
  FriendlyName : string
}.

Definition PacketType `{PtpConstants} (ficrp : t) : Z := PKT_InitCommandRequest.
Definition GetGUID (ficrp : t) : list Z := GUID ficrp.
Definition GetFriendlyName (ficrp : t) : string := FriendlyName ficrp.
Definition GetProtocolVersion (ficrp : t) : Z := ProtocolVersion ficrp.
Definition SetProtocolVersion (ficrp : t) (pv : Z) : t :=
  Build pv (GUID ficrp) (FriendlyName ficrp).

End FujiInitCommandRequestPacket.

Definition NewFujiInitCommandRequestPacket (guid : list Z) (friendlyName : string)
  : FujiInitCommandRequestPacket.t :=
  FujiInitCommandRequestPacket.Build PV_Fuji guid friendlyName.

Section Marshal.

(** The wire form of a string field. [ipInternal.MarshalLittleEndian] is
    outside the translated files; the encoder of strings stays a parameter. *)
Variable MarshalString : string -> list Z.

(** Modelled from the spec: [ipInternal.MarshalLittleEndian] is missing from
    the translated files. "All integers are little-endian", "Identifiers
    (GUIDs) are 16 raw bytes transmitted verbatim", and the serializer
    "writes its payload in declared field order"; the comment above the
    struct (lines 55-72) shows the same bytes on the wire. *)
Definition MarshalLittleEndian (ficrp : FujiInitCommandRequestPacket.t) : list Z :=
  le_bytes 4 (FujiInitCommandRequestPacket.ProtocolVersion ficrp)
  ++ FujiInitCommandRequestPacket.GUID ficrp
  ++ MarshalString (FujiInitCommandRequestPacket.FriendlyName ficrp).

Definition FujiInitCommandRequestPacket_Payload
  (ficrp : FujiInitCommandRequestPacket.t) : list Z :=
  MarshalLittleEndian ficrp.

End Marshal.

(** [uuid.MustParse] on the canonical 36-character form of google/uuid: the
    hexadecimal digits are read in order, two per byte, and the dashes are
    skipped. *)
Definition hex_digit (c : ascii) : option Z :=
  let n := Z.of_nat (nat_of_ascii c) in
  if (48 <=? n) && (n <=? 57) then Some (n - 48)
  else if (97 <=? n) && (n <=? 102) then Some (n - 87)
  else if (65 <=? n) && (n <=? 70) then Some (n - 55)
  else None.

Fixpoint hex_pairs (ds : list Z) : option (list Z) :=
  match ds with
  | [] => Some []
  | hi :: lo :: rest =>
      match hex_pairs rest with
      | Some bs => Some (hi * 16 + lo :: bs)
      | None => None
      end
  | [_] => None
  end.

Fixpoint hex_digits (cs : list ascii) : option (list Z) :=
  match cs with
  | [] => Some []
  | c :: rest =>
      if Ascii.eqb c "-"%char then hex_digits rest
      else match hex_digit c, hex_digits rest with
           | Some d, Some ds => Some (d :: ds)
           | _, _ => None
           end
  end.

Definition uuid_Parse (s : string) : option (list Z) :=
  match hex_digits (list_ascii_of_string s) with
  | Some ds =>
      match hex_pairs ds with
      | Some bs => if Nat.eqb (List.length bs) 16 then Some bs else None
      | None => None
      end
  | None => None
  end.

(** The bytes of the GUID ada5485d-87b2-7f0b-d3d5-ded00278a8c0. *)
Definition example_guid : list Z :=
  [0xAD; 0xA5; 0x48; 0x5D; 0x87; 0xB2; 0x7F; 0x0B;
   0xD3; 0xD5; 0xDE; 0xD0; 0x02; 0x78; 0xA8; 0xC0].

(** ** [FujiOperationRequestPacket] (lines 116-142) *)

Module FujiOperationRequestPacket.

Record t : Type := Build {
  DataPhaseInfo : Z;        (* uint16 *)
  OperationCode : Z;        (* ptp.OperationCode, uint16 *)
  TransactionID : Z;        (* ptp.TransactionID, uint32 *)
  Parameter1 : Z;
  Parameter2 : Z;
  Parameter3 : Z;
  Parameter4 : Z;
  Parameter5 : Z
}.

Definition PacketType `{PtpConstants} (forp : t) : Z := PKT_Invalid.

End FujiOperationRequestPacket.

(** A composite literal leaves the fields it does not name at zero. *)
Definition NewFujiOpenSessionCommand `{PtpConstants} (tid sid : Z)
  : FujiOperationRequestPacket.t :=
  FujiOperationRequestPacket.Build
    (uint16 DP_NoDataOrDataIn) OC_OpenSession tid (uint32 sid) 0 0 0 0.

(** ** [FujiOperationResponsePacket] (lines 148-170) *)

Module FujiOperationResponsePacket.

Record t : Type := Build {
  DataPhase : Z;
  OperationResponseCode : Z;
  TransactionID : Z
}.

Definition PacketType `{PtpConstants} (forp : t) : Z := PKT_Invalid.

Definition WasSuccessfull `{PtpConstants} (forp : t) : bool :=
  (OperationResponseCode forp =? RC_OK)
  || (OperationResponseCode forp =? RC_SessionAlreadyOpen)
  || (OperationResponseCode forp =? RC_Fuji_DevicePropValue).

Definition ReasonAsError `{PtpConstants} (forp : t) : error :=
  errors_New (OperationResponseCodeAsString (OperationResponseCode forp)).

End FujiOperationResponsePacket.

(** ** [FujiOperationResponsePacketOne] (lines 174-197) *)

Module FujiOperationResponsePacketOne.

Record t : Type := Build {
  DataPhase : Z;
  OperationResponseCode : Z;
  TransactionID : Z;
  Parameter1 : Z
}.

Definition PacketType `{PtpConstants} (forp : t) : Z := PKT_Invalid.

Definition WasSuccessfull `{PtpConstants} (forp : t) : bool :=
  (OperationResponseCode forp =? RC_OK)
  || (OperationResponseCode forp =? RC_SessionAlreadyOpen)
  || (OperationResponseCode forp =? RC_Fuji_DevicePropValue).

Definition ReasonAsError `{PtpConstants} (forp : t) : error :=
  errors_New (OperationResponseCodeAsString (OperationResponseCode forp)).

End FujiOperationResponsePacketOne.

(** ** The client and its Command/Data connection

    [ip.Client] and its methods are outside the translated files.
    [FujiInitSequence] uses four of them: [TransactionId],
    [incrementTransactionId], [SendPacketToCmdDataConn] and
    [WaitForPacketFromCmdDataConn]. The connection is an arbitrary state
    [Net] with an arbitrary behaviour ([Transport]); every call on it is
    recorded in [events], as is every increment of the transaction
    identifier, so that what the handshake sent and read, and in which
    order, can be stated. *)

Inductive Response : Type :=
| RespPlain (p : FujiOperationResponsePacket.t)
| RespOne (po : FujiOperationResponsePacketOne.t).

Inductive Event : Type :=
| EvSend (pkt : FujiOperationRequestPacket.t) (err : option error)
| EvWait (r : error + Response)
| EvIncrement
| EvClose.

Class Transport (Net : Type) : Type := {
  conn_send : Net -> FujiOperationRequestPacket.t -> option error * Net;
  conn_recv : Net -> (error + FujiOperationResponsePacket.t) * Net;
  conn_recv_one : Net -> (error + FujiOperationResponsePacketOne.t) * Net;
  conn_close : Net -> Net
}.

Record Client (Net : Type) : Type := mkClient {
  transactionId : Z;
  conn : Net;
  events : list Event
}.
Arguments mkClient {Net} _ _ _.
Arguments transactionId {Net} _.
Arguments conn {Net} _.
Arguments events {Net} _.

(** A Go function [func f(c *Client) (A, error)]: it returns a value or an
    error and leaves the client in a new state. *)
Inductive Result (A : Type) : Type :=
| Ok (a : A)
| Err (e : error).
Arguments Ok {A} _.
Arguments Err {A} _.

Definition M (Net A : Type) : Type := Client Net -> Result A * Client Net.

Definition ret {Net A} (a : A) : M Net A := fun c => (Ok a, c).
Definition raise {Net A} (e : error) : M Net A := fun c => (Err e, c).

(** [x, err := m; if err != nil { return err }; k x] *)
Definition bind {Net A B} (m : M Net A) (k : A -> M Net B) : M Net B :=
  fun c =>
    match m c with
    | (Ok a, c') => k a c'
    | (Err e, c') => (Err e, c')
    end.

Declare Scope go_scope.
Delimit Scope go_scope with go.
Notation "x <- m ;; k" := (bind m (fun x => k))
  (at level 61, m at next level, right associativity) : go_scope.
Notation "m ;;; k" := (bind m (fun _ => k))
  (at level 61, right associativity) : go_scope.

Section ClientMethods.

Context {Net : Type} `{Transport Net}.

(** Modelled from the spec: [Client.TransactionId] is missing from the
    translated files; the session owns "a monotonically increasing 32-bit
    transaction identifier". *)
Definition TransactionId : M Net Z :=
  fun c => (Ok (transactionId c), c).

(** Modelled from the spec: [Client.incrementTransactionId] is missing from
    the translated files; the identifier is a [uint32] that "increments"
    by one. *)
Definition incrementTransactionId : M Net unit :=
  fun c => (Ok tt, mkClient (uint32 (transactionId c + 1)) (conn c)
                    (events c ++ [EvIncrement])).

(** Modelled from the spec: [Client.SendPacketToCmdDataConn] is missing from
    the translated files; "each send acquires the connection exclusively for
    the duration of the write", and a failed write is an error. *)
Definition SendPacketToCmdDataConn (pkt : FujiOperationRequestPacket.t) : M Net unit :=
  fun c =>
    let '(err, n) := conn_send (conn c) pkt in
    let c' := mkClient (transactionId c) n (events c ++ [EvSend pkt err]) in
    match err with
    | None => (Ok tt, c')
    | Some e => (Err e, c')
    end.

(** Modelled from the spec: [Client.WaitForPacketFromCmdDataConn] is missing
    from the translated files; the caller "supplies the expected response
    variant", the call reads one packet of that shape into it or fails. The
    two functions are the call at a [*FujiOperationResponsePacket] and at a
    [*FujiOperationResponsePacketOne]; the value read replaces the fields of
    the packet the caller passed. *)
Definition WaitForPacketFromCmdDataConn : M Net FujiOperationResponsePacket.t :=
  fun c =>
    let '(r, n) := conn_recv (conn c) in
    match r with
    | inl e => (Err e, mkClient (transactionId c) n (events c ++ [EvWait (inl e)]))
    | inr p => (Ok p, mkClient (transactionId c) n (events c ++ [EvWait (inr (RespPlain p))]))
    end.

Definition WaitForPacketOneFromCmdDataConn : M Net FujiOperationResponsePacketOne.t :=
  fun c =>
    let '(r, n) := conn_recv_one (conn c) in
    match r with
    | inl e => (Err e, mkClient (transactionId c) n (events c ++ [EvWait (inl e)]))
    | inr po => (Ok po, mkClient (transactionId c) n (events c ++ [EvWait (inr (RespOne po))]))
    end.

(** Modelled from the spec: [Client.Close] is missing from the translated
    files; it "tears down both sockets". [main] defers it. *)
Definition Close : M Net unit :=
  fun c => (Ok tt, mkClient (transactionId c) (conn_close (conn c)) (events c ++ [EvClose])).

End ClientMethods.

(** ** [FujiInitSequence] (lines 218-399)

    The function is one sequence of four exchanges; each is a definition of
    its own here, and [FujiInitSequence] runs them in the order of the
    source. The calls of [log] are left out: they write to the log only. The
    variable [p] of the source is filled again by every read; [po] is read
    once and its [Parameter1] is used by the echo. *)

Section FujiInit.

Context `{PtpConstants} {Net : Type} `{Transport Net}.

Open Scope go_scope.

(** lines 221-240 *)
Definition stepOpenSession : M Net unit :=
  tid <- TransactionId ;;
  SendPacketToCmdDataConn (NewFujiOpenSessionCommand tid 0x00000001) ;;;
  p <- WaitForPacketFromCmdDataConn ;;
  if negb (FujiOperationResponsePacket.WasSuccessfull p)
  then raise (FujiOperationResponsePacket.ReasonAsError p)
  else incrementTransactionId.

(** lines 242-276 *)
Definition stepDeclareInitSequence : M Net unit :=
  tid <- TransactionId ;;
  SendPacketToCmdDataConn
    (FujiOperationRequestPacket.Build (uint16 DP_NoDataOrDataIn)
       OC_SetDevicePropValue tid (uint32 DPC_Fuji_UseInitSequence) 0 0 0 0) ;;;
  tid <- TransactionId ;;
  SendPacketToCmdDataConn
    (FujiOperationRequestPacket.Build (uint16 DP_DataOut)
       OC_SetDevicePropValue tid PM_Fuji_InitSequence 0 0 0 0) ;;;
  p <- WaitForPacketFromCmdDataConn ;;
  if negb (FujiOperationResponsePacket.WasSuccessfull p)
  then raise (FujiOperationResponsePacket.ReasonAsError p)
  else incrementTransactionId.

(** lines 278-351 *)
Definition stepNegotiateAppVersion : M Net unit :=
  tid <- TransactionId ;;
  SendPacketToCmdDataConn
    (FujiOperationRequestPacket.Build (uint16 DP_NoDataOrDataIn)
       OC_GetDevicePropValue tid (uint32 DPC_Fuji_AppVersion) 0 0 0 0) ;;;
  po <- WaitForPacketOneFromCmdDataConn ;;
  if negb (FujiOperationResponsePacketOne.WasSuccessfull po)
  then raise (FujiOperationResponsePacketOne.ReasonAsError po)
  else
  p <- WaitForPacketFromCmdDataConn ;;
  if negb (FujiOperationResponsePacket.WasSuccessfull p)
  then raise (FujiOperationResponsePacket.ReasonAsError p)
  else
  incrementTransactionId ;;;
  tid <- TransactionId ;;
  SendPacketToCmdDataConn
    (FujiOperationRequestPacket.Build (uint16 DP_NoDataOrDataIn)
       OC_SetDevicePropValue tid (uint32 DPC_Fuji_AppVersion) 0 0 0 0) ;;;
  tid <- TransactionId ;;
  SendPacketToCmdDataConn
    (FujiOperationRequestPacket.Build (uint16 DP_DataOut)
       OC_SetDevicePropValue tid
       (FujiOperationResponsePacketOne.Parameter1 po) 0 0 0 0) ;;;
  p <- WaitForPacketFromCmdDataConn ;;
  if negb (FujiOperationResponsePacket.WasSuccessfull p)
  then raise (FujiOperationResponsePacket.ReasonAsError p)
  else incrementTransactionId.

(** lines 353-373 and 398; the increment and the [OC_Fuji_GetDeviceInfo]
    request of lines 375-396 are inside a comment of the source. *)
Definition stepInitiateOpenCapture : M Net unit :=
  tid <- TransactionId ;;
  SendPacketToCmdDataConn
    (FujiOperationRequestPacket.Build (uint16 DP_NoDataOrDataIn)
       OC_InitiateOpenCapture tid 0 0 0 0 0) ;;;
  p <- WaitForPacketFromCmdDataConn ;;
  if negb (FujiOperationResponsePacket.WasSuccessfull p)
  then raise (FujiOperationResponsePacket.ReasonAsError p)
  else ret tt.

Definition FujiInitSequence : M Net unit :=
  stepOpenSession ;;;
  stepDeclareInitSequence ;;;
  stepNegotiateAppVersion ;;;
  stepInitiateOpenCapture.

(** What ends the handshake: a failed write, a failed read, or a response
    that is not successful; [stops ev] is the error returned then. *)
Definition stops (ev : Event) : option error :=
  match ev with
  | EvSend _ err => err
  | EvWait (inl e) => Some e
  | EvWait (inr (RespPlain p)) =>
      if FujiOperationResponsePacket.WasSuccessfull p then None
      else Some (FujiOperationResponsePacket.ReasonAsError p)
  | EvWait (inr (RespOne po)) =>
      if FujiOperationResponsePacketOne.WasSuccessfull po then None
      else Some (FujiOperationResponsePacketOne.ReasonAsError po)
  | EvIncrement => None
  | EvClose => None
  end.

(** The transaction identifier after [d] increments. *)
Definition incremented (d : nat) (t : Z) : Z :=
  Nat.iter d (fun t => uint32 (t + 1)) t.

(** What a run of a part [m] of the handshake does, from any client [c]: it
    adds events to the record, never a [Close]; when it returns without an
    error none of the events it added stops the handshake and the
    transaction identifier was incremented [d] times; when it returns the
    error [e], the last event it added is the one that stops the handshake,
    with [e], and none before it does. *)
Definition run_spec {A : Type} (m : M Net A) (d : nat) : Prop :=
  forall c : Client Net,
  exists evs : list Event,
    events (snd (m c)) = events c ++ evs
    /\ Forall (fun ev => ev <> EvClose) evs
    /\ match fst (m c) with
       | Ok _ =>
           Forall (fun ev => stops ev = None) evs
           /\ transactionId (snd (m c)) = incremented d (transactionId c)
       | Err e =>
           exists pre ev,
             evs = pre ++ [ev]
             /\ Forall (fun ev => stops ev = None) pre
             /\ stops ev = Some e
       end.

End FujiInit.

Section FujiTraces.

Context `{PtpConstants}.

(** The events of the four exchanges when they succeed, for a client whose
    transaction identifier is [t] when the exchange starts. *)
Definition traceOpenSession (t : Z) (p : FujiOperationResponsePacket.t) : list Event :=
  [ EvSend (NewFujiOpenSessionCommand t 1) None;
    EvWait (inr (RespPlain p));
    EvIncrement ].

Definition traceDeclareInitSequence (t : Z) (p : FujiOperationResponsePacket.t)
  : list Event :=
  [ EvSend (FujiOperationRequestPacket.Build (uint16 DP_NoDataOrDataIn)
              OC_SetDevicePropValue t (uint32 DPC_Fuji_UseInitSequence) 0 0 0 0) None;
    EvSend (FujiOperationRequestPacket.Build (uint16 DP_DataOut)
              OC_SetDevicePropValue t PM_Fuji_InitSequence 0 0 0 0) None;
    EvWait (inr (RespPlain p));
    EvIncrement ].

Definition traceNegotiateAppVersion (t : Z) (po : FujiOperationResponsePacketOne.t)
           (p1 p2 : FujiOperationResponsePacket.t) : list Event :=
  [ EvSend (FujiOperationRequestPacket.Build (uint16 DP_NoDataOrDataIn)
              OC_GetDevicePropValue t (uint32 DPC_Fuji_AppVersion) 0 0 0 0) None;
    EvWait (inr (RespOne po));
    EvWait (inr (RespPlain p1));
    EvIncrement;
    EvSend (FujiOperationRequestPacket.Build (uint16 DP_NoDataOrDataIn)
              OC_SetDevicePropValue (uint32 (t + 1))
              (uint32 DPC_Fuji_AppVersion) 0 0 0 0) None;
    EvSend (FujiOperationRequestPacket.Build (uint16 DP_DataOut)
              OC_SetDevicePropValue (uint32 (t + 1))
              (FujiOperationResponsePacketOne.Parameter1 po) 0 0 0 0) None;
    EvWait (inr (RespPlain p2));
    EvIncrement ].

Definition traceInitiateOpenCapture (t : Z) (p : FujiOperationResponsePacket.t)
  : list Event :=
  [ EvSend (FujiOperationRequestPacket.Build (uint16 DP_NoDataOrDataIn)
              OC_InitiateOpenCapture t 0 0 0 0 0) None;
    EvWait (inr (RespPlain p)) ].

End FujiTraces.

Definition is_increment (ev : Event) : bool :=
  match ev with
  | EvIncrement => true
  | _ => false
  end.

Definition response_code (r : Response) : Z :=
  match r with
  | RespPlain p => FujiOperationResponsePacket.OperationResponseCode p
  | RespOne po => FujiOperationResponsePacketOne.OperationResponseCode po
  end.

Definition response_WasSuccessfull `{PtpConstants} (r : Response) : bool :=
  match r with
  | RespPlain p => FujiOperationResponsePacket.WasSuccessfull p
  | RespOne po => FujiOperationResponsePacketOne.WasSuccessfull po
  end.

(** ** A scripted responder

    The connection is the list of the responses the responder will give, in
    order; every write succeeds. Reading a plain response keeps the fixed
    fields of the next one; reading a one-parameter response needs one. *)

Definition io_EOF : error := errors_New "EOF".
Definition io_ErrUnexpectedEOF : error := errors_New "unexpected EOF".

Definition plain_of (r : Response) : FujiOperationResponsePacket.t :=
  match r with
  | RespPlain p => p
  | RespOne po =>
      FujiOperationResponsePacket.Build
        (FujiOperationResponsePacketOne.DataPhase po)
        (FujiOperationResponsePacketOne.OperationResponseCode po)
        (FujiOperationResponsePacketOne.TransactionID po)
  end.

#[export] Instance scripted : Transport (list Response) := {|
  conn_send := fun n _ => (None, n);
  conn_recv := fun n =>
    match n with
    | [] => (inl io_EOF, [])
    | r :: rest => (inr (plain_of r), rest)
    end;
  conn_recv_one := fun n =>
    match n with
    | [] => (inl io_EOF, [])
    | RespOne po :: rest => (inr po, rest)
    | RespPlain _ :: rest => (inl io_ErrUnexpectedEOF, rest)
    end;
  conn_close := fun _ => []
|}.

Definition respond (code tid : Z) : Response :=
  RespPlain (FujiOperationResponsePacket.Build 3 code tid).

Definition respond_one (code tid param : Z) : Response :=
  RespOne (FujiOperationResponsePacketOne.Build 3 code tid param).

(** The responder of the handshake-success scenario, for a client whose
    transaction identifier is [t] when the handshake starts. *)
Definition scenario_success (t : Z) : Client (list Response) :=
  mkClient t
    [ respond 0x2001 t;
      respond 0x2001 (t + 1);
      respond_one RC_Fuji_DevicePropValue (t + 2) PM_Fuji_AppVersion;
      respond 0x2001 (t + 2);
      respond 0x2001 (t + 3);
      respond 0x2001 (t + 4) ]
    [].

(** The responder of the friendly-name-mismatch scenario: the second
    exchange is answered with [0x2019]. *)
Definition scenario_busy (t : Z) : Client (list Response) :=
  mkClient t
    [ respond 0x2001 t;
      respond FR_Fuji_DeviceBusy (t + 1);
      respond 0x2001 (t + 2) ]
    [].

(** ** Go's [float64] and package [math] *)

Open Scope float_scope.

(** [float64(n)] for an integer [n]. *)
Definition float64 (z : Z) : float :=
  if (z <? 0)%Z then - of_uint63 (Uint63.of_Z (- z)) else of_uint63 (Uint63.of_Z z).

(** [int(x)] for a finite [x]: the fraction is discarded. *)
Definition int_of_float (x : float) : Z :=
  match Prim2SF x with
  | S754_finite s m e =>
      let v := if (0 <=? e)%Z then (Z.pos m * 2 ^ e)%Z else (Z.pos m / 2 ^ (- e))%Z in
      if s then (- v)%Z else v
  | _ => 0%Z
  end.

(** [math.Modf] on a non-negative argument: below 1 the integer part is
    zero; from 1 on the fraction bits of the argument are cleared. *)
Definition modf_nonneg (f : float) : float * float :=
  if f <? 1 then
    if f =? 0 then (f, f) else (0, f)
  else
    let int := float64 (int_of_float f) in
    (int, f - int).

(** [math.Modf]: "Both values have the same sign as f"; a negative argument
    is negated, split and negated back. *)
Definition math_Modf (f : float) : float * float :=
  if (f <? 1) && (f <? 0) then
    let '(int, frac) := modf_nonneg (- f) in (- int, - frac)
  else modf_nonneg f.

Definition math_Abs (x : float) : float := abs x.
Definition math_Signbit (x : float) : bool := get_sign x.

(** The constant [0.4] of the source, as the [float64] nearest to it. *)
Definition float_0_4 : float := 0x1.999999999999ap-2.
Definition float_0_1 : float := 0x1.999999999999ap-4.

Close Scope float_scope.

(** ** The widget

    [Widget] and its methods are outside the translated files. A widget
    draws into an image that it shares; the image is the list of the strings
    drawn into it so far, each with the pen position and the colour it was
    drawn with. *)

Record Point26_6 : Type := mkPoint { X : Z; Y : Z }.

Record Colour : Type := RGB { red : Z; green : Z; blue : Z }.

Record DrawOp : Type := mkDrawOp {
  op_dot : Point26_6;
  op_colour : Colour;
  op_text : list ascii
}.

Record Widget : Type := mkWidget {
  origin : Point26_6;
  Dot : Point26_6;
  colour : Colour;
  defaultColour : Colour;
  img : list DrawOp
}.

Inductive Outcome : Type :=
| Returned
| Panicked.

Definition white : Colour := RGB 255 255 255.

Section Viewfinder.

(** [VFGlyphs6x13.Width], the advance of a glyph of the viewfinder face. *)
Variable VFGlyphs6x13_Width : Z.

(** The type [ip.FujiBatteryLevel] and its three levels. *)
Variable FujiBatteryLevel : Z -> Z.
Variables BAT_Fuji_3bOne BAT_Fuji_3bTwo BAT_Fuji_3bFull : Z.

(** Modelled from the spec: [Widget.ResetToOrigin] is missing from the
    translated files; it "restores Dot to the widget's origin". *)
Definition ResetToOrigin (w : Widget) : Widget :=
  mkWidget (origin w) (origin w) (colour w) (defaultColour w) (img w).

(** Modelled from the spec: [Widget.ResetColour] is missing from the
    translated files; "ResetColour/ResetFace restore defaults". *)
Definition ResetColour (w : Widget) : Widget :=
  mkWidget (origin w) (Dot w) (defaultColour w) (defaultColour w) (img w).

(** Modelled from the spec: [Widget.SetColour] is missing from the
    translated files; "set-colour(r,g,b)" sets the current colour. *)
Definition SetColour (w : Widget) (r g b : Z) : Widget :=
  mkWidget (origin w) (Dot w) (RGB r g b) (defaultColour w) (img w).

(** Modelled from the spec: [Widget.DrawString] is missing from the
    translated files; it draws with the current colour at the pen and
    "advances the pen by the sum of glyph widths". *)
Definition DrawString (w : Widget) (s : list ascii) : Widget :=
  mkWidget (origin w)
    (mkPoint (int32 (X (Dot w) + VFGlyphs6x13_Width * 64 * Z.of_nat (List.length s)))
             (Y (Dot w)))
    (colour w) (defaultColour w)
    (img w ++ [mkDrawOp (Dot w) (colour w) s]).

(** Modelled from the spec: [NewWhiteGlyphWidget] is missing from the
    translated files; a widget has an "origin (x,y) in image coordinates"
    and a pen in 26.6 fixed point, and this one is white by default. *)
Definition NewWhiteGlyphWidget (image : list DrawOp) (x y : Z) : Widget :=
  let o := mkPoint (int32 (x * 64)) (int32 (y * 64)) in
  mkWidget o o white white image.

(** [w.Dot.X -= d] on the pen, a [fixed.Int26_6], which is an [int32]. *)
Definition Dot_X_sub (w : Widget) (d : Z) : Widget :=
  mkWidget (origin w) (mkPoint (int32 (X (Dot w) - d)) (Y (Dot w)))
           (colour w) (defaultColour w) (img w).

(** [s[i] = r] on a slice: a run-time panic when [i] is out of range. *)
Definition set_index {A : Type} (s : list A) (i : Z) (r : A) : option (list A) :=
  if (0 <=? i) && (i <? Z.of_nat (List.length s))
  then Some (firstn (Z.to_nat i) s ++ r :: skipn (S (Z.to_nat i)) s)
  else None.

Definition runes (s : string) : list ascii := list_ascii_of_string s.

(** The double-quote rune and the exclamation-mark rune of the source. *)
Definition rune_quote : ascii := ascii_of_nat 34.
Definition rune_bang : ascii := "!"%char.

(** *** lines 28-54: the battery widget *)

Definition drawFujiBattery3Bars (w : Widget) (val : Z) : Outcome * Widget :=
  let w := ResetToOrigin w in
  let lvl := FujiBatteryLevel val in
  if lvl =? BAT_Fuji_3bOne then
    let w := SetColour w 255 0 0 in
    (Returned, DrawString w (runes "baU"))
  else if lvl =? BAT_Fuji_3bTwo then
    (Returned, DrawString w (runes "bCT"))
  else if lvl =? BAT_Fuji_3bFull then
    (Returned, DrawString w (runes "BAT"))
  else
    (Returned, DrawString w (runes "")).

(** [maxX], [maxY] are [img.Bounds().Max]; the widget's [Draw] is
    [drawFujiBattery3Bars]. *)
Definition NewFujiBatteryLevelWidget (image : list DrawOp) (maxX maxY : Z) : Widget :=
  let x := (float64 maxX - float64 maxX * float_0_1)%float in
  let y := maxY - 8 in
  NewWhiteGlyphWidget image (int_of_float x) y.

(** *** lines 69-132: the exposure bias widget *)

Definition getBias : list ascii := runes "6..5..4..0..1..2..3".

(** lines 56-67; [maxX], [maxY] are [img.Bounds().Max], and the widget's
    [Draw] is [drawFujiExposureBiasCompensation]. *)
Definition NewFujiExposureBiasCompensationWidget (image : list DrawOp) (maxX maxY : Z)
  : Widget :=
  let offset := Z.quot (VFGlyphs6x13_Width * Z.of_nat (List.length getBias)) 2 in
  let x := (float64 maxX - float64 maxX * 0.5 - float64 offset)%float in
  let y := maxY - 10 in
  NewWhiteGlyphWidget image (int_of_float x) y.

(** lines 77-79 and 89-100: the position of the marker, whether it is on
    zero, and whether the fraction is zero. *)
Definition markerPosition (val : Z) : Z * bool * bool :=
  let zero := 9 in
  let stops := 3 in
  let '(i, f) := math_Modf (float64 (int16 val) / float64 1000)%float in
  let onZero := ((i =? 0) && (f =? 0))%float in
  let fStop :=
    if negb (f =? 0)%float then
      let fStop := if (float_0_4 <? math_Abs f)%float then 2 else 1 in
      if math_Signbit f then - fStop else fStop
    else 0 in
  let pos := zero + fStop + int_of_float (i * float64 stops)%float in
  (pos, onZero, (f =? 0)%float).

(** lines 118-122: the loop over the two runes, double quote then
    exclamation mark. *)
Fixpoint drawMarkers (w : Widget) (marker : list ascii) (pos : Z) (rs : list ascii)
  : Outcome * Widget :=
  match rs with
  | [] => (Returned, w)
  | r :: rest =>
      let w := ResetToOrigin w in
      match set_index marker pos r with
      | None => (Panicked, w)
      | Some marker => drawMarkers (DrawString w marker) marker pos rest
      end
  end.

Definition drawFujiExposureBiasCompensation (w : Widget) (val : Z) : Outcome * Widget :=
  let w := ResetToOrigin w in
  let w := ResetColour w in
  let bias := getBias in
  let marker := runes "                   " in
  let w := Dot_X_sub w (int32 (VFGlyphs6x13_Width * 3 * 64)) in
  let w := DrawString w (runes "+-") in
  let w := ResetToOrigin w in
  let '(pos, onZero, fIsZero) := markerPosition val in
  match (if fIsZero then set_index bias pos rune_quote else Some bias) with
  | None => (Panicked, w)
  | Some bias =>
      let w := if onZero then SetColour w 100 100 100 else w in
      let w := DrawString w bias in
      if onZero then
        let w := SetColour w 255 255 255 in
        drawMarkers w marker pos [rune_quote; rune_bang]
      else
        match set_index marker pos rune_bang with
        | None => (Panicked, w)
        | Some marker =>
            let w := SetColour w 255 185 10 in
            let w := ResetToOrigin w in
            (Returned, DrawString w marker)
        end
  end.

End Viewfinder.


(** *** The marker position in integer arithmetic

    The position of the marker as the spec words it, on the integer
    [x = int16(val)]: the whole stops are the quotient of [x] by 1000, the
    third-stop offset follows the remainder [r]: none when [r = 0], one
    third when [|r| <= 400], two thirds above, with the sign of [r]. *)
Definition thirdStop_spec (x : Z) : Z :=
  let r := Z.rem x 1000 in
  if r =? 0 then 0 else Z.sgn r * (if Z.abs r <=? 400 then 1 else 2).

Definition markerPosition_spec (x : Z) : Z * bool * bool :=
  (9 + thirdStop_spec x + 3 * Z.quot x 1000, x =? 0, Z.rem x 1000 =? 0).

Definition same_marker (a b : Z * bool * bool) : bool :=
  let '(p, o, z) := a in
  let '(p', o', z') := b in
  (p =? p') && Bool.eqb o o' && Bool.eqb z z'.

(** [lo, lo + 1, ..., lo + n - 1] *)
Definition Z_range (lo : Z) (n : nat) : list Z :=
  map (fun k => lo + Z.of_nat k) (seq 0 n).

(** The first glyph drawn by [drawFujiExposureBiasCompensation]: the +/-
    icon, three glyphs left of the origin, in the default colour. *)
Definition bias_icon (Width : Z) (w : Widget) : DrawOp :=
  mkDrawOp (mkPoint (int32 (X (origin w) - int32 (Width * 3 * 64))) (Y (origin w)))
           (defaultColour w) (runes "+-").

Definition yellow : Colour := RGB 255 185 10.
Definition grey : Colour := RGB 100 100 100.

(** A viewfinder face of width 6 on a 640 by 480 image. *)
Definition example_bias_widget : Widget :=
  NewFujiExposureBiasCompensationWidget 6 [] 640 480.

(** The strings of the draw at zero: the ruler with the placeholder at
    index 9, and the marker line with the placeholder, then with the marker,
    at index 9. *)
Definition ruler_on_zero : list ascii :=
  runes "6..5..4.." ++ rune_quote :: runes "..1..2..3".
Definition marker_placeholder_on_zero : list ascii :=
  runes "         " ++ rune_quote :: runes "         ".
Definition marker_on_zero : list ascii := runes "         !         ".

(** ** [cmd/main.go]: [main] (lines 16-62)

    [main] ends the process through [os.Exit]. The flag variables ([help],
    [version], [file], [server]) and the functions [usage], [initFlags],
    [loadConfig] and [launchServer] are outside the translated files: the
    flags are a record, what [initFlags] does to them and what
    [ip.NewClient] and [Dial] return are parameters, and the four functions
    are taken to return. The calls made are recorded in order. *)

Record Flags : Type := mkFlags {
  help : bool;
  version : bool;
  file : string;
  server : bool
}.

Inductive Call : Type :=
| call_usage
| call_initFlags
| call_print_version
| call_loadConfig
| call_NewClient
| call_print_error (e : error)
| call_Dial
| call_launchServer.

Inductive Exit : Type :=
| os_Exit (code : Z)
| index_out_of_range.

Section Main.

Variable initFlags : list string -> Flags -> Flags.
Variable NewClient_err : option error.
Variable Dial_err : option error.

Definition main (os_Args : list string) (flags : Flags) : Exit * list Call :=
  match os_Args with
  | [] => (index_out_of_range, [])                    (* os.Args[0] *)
  | _ :: _ =>
      let noArgs := (Z.of_nat (List.length os_Args) <? 2) in
      if noArgs || help flags then
        let exit := 0 in
        let exit := if noArgs then 1 else exit in
        (os_Exit exit, [call_usage])
      else
        let flags := initFlags os_Args flags in
        if version flags then
          (os_Exit 0, [call_initFlags; call_print_version])
        else
          let calls := call_initFlags
                       :: if String.eqb (file flags) "" then [] else [call_loadConfig] in
          match NewClient_err with
          | Some err => (os_Exit 4, calls ++ [call_NewClient; call_print_error err])
          | None =>
              match Dial_err with
              | Some err =>
                  (os_Exit 5, calls ++ [call_NewClient; call_Dial; call_print_error err])
              | None =>
                  (os_Exit 0,
                   calls ++ [call_NewClient; call_Dial]
                   ++ if server flags then [call_launchServer] else [])
              end
          end
  end.

End Main.

(** ** The handshake: what the record of a run is measured by *)

Definition is_send (ev : Event) : bool :=
  match ev with
  | EvSend _ _ => true
  | _ => false
  end.

Definition is_wait (ev : Event) : bool :=
  match ev with
  | EvWait _ => true
  | _ => false
  end.

Definition count (f : Event -> bool) (evs : list Event) : nat :=
  List.length (filter f evs).

(** The transaction identifier of a client that had [t] before the events
    [evs]. *)
Fixpoint tid_after (t : Z) (evs : list Event) : Z :=
  match evs with
  | [] => t
  | EvIncrement :: rest => tid_after (uint32 (t + 1)) rest
  | _ :: rest => tid_after t rest
  end.

(** Every packet sent in [evs] carries the transaction identifier that a
    client starting at [t] has when it is sent. *)
Fixpoint tids_follow (t : Z) (evs : list Event) : Prop :=
  match evs with
  | [] => True
  | EvSend pkt _ :: rest =>
      FujiOperationRequestPacket.TransactionID pkt = t /\ tids_follow t rest
  | EvIncrement :: rest => tids_follow (uint32 (t + 1)) rest
  | _ :: rest => tids_follow t rest
  end.

Section RunShape.

Context `{PtpConstants} {Net : Type} `{Transport Net}.

(** What a run of a part [m] of the handshake does to the record, from any
    client: the packets it sends carry the client's transaction identifier
    of the moment, the identifier at the end is the one at the start after
    the increments recorded, and the run makes at most [s] writes, [r] reads
    and [i] increments, exactly that many when it returns without error. *)
Definition run_shape {A : Type} (m : M Net A) (s r i : nat) : Prop :=
  forall c : Client Net,
  exists evs : list Event,
    events (snd (m c)) = events c ++ evs
    /\ tids_follow (transactionId c) evs
    /\ transactionId (snd (m c)) = tid_after (transactionId c) evs
    /\ (count is_send evs <= s /\ count is_wait evs <= r
        /\ count is_increment evs <= i)%nat
    /\ (forall a, fst (m c) = Ok a ->
        count is_send evs = s /\ count is_wait evs = r
        /\ count is_increment evs = i).

End RunShape.

(** ** A responder whose responses lose their transaction identifier

    The fields of a response that the success test does not read are the
    data phase and the transaction identifier; [forget] sets them to zero in
    every response a connection delivers. *)

Definition forget_plain (p : FujiOperationResponsePacket.t)
  : FujiOperationResponsePacket.t :=
  FujiOperationResponsePacket.Build 0
    (FujiOperationResponsePacket.OperationResponseCode p) 0.

Definition forget_one (po : FujiOperationResponsePacketOne.t)
  : FujiOperationResponsePacketOne.t :=
  FujiOperationResponsePacketOne.Build 0
    (FujiOperationResponsePacketOne.OperationResponseCode po) 0
    (FujiOperationResponsePacketOne.Parameter1 po).

Definition forget_event (ev : Event) : Event :=
  match ev with
  | EvWait (inr (RespPlain p)) => EvWait (inr (RespPlain (forget_plain p)))
  | EvWait (inr (RespOne po)) => EvWait (inr (RespOne (forget_one po)))
  | _ => ev
  end.

Definition forget_client {Net : Type} (c : Client Net) : Client Net :=
  mkClient (transactionId c) (conn c) (map forget_event (events c)).

Definition forgetful {Net : Type} (T : Transport Net) : Transport Net := {|
  conn_send := conn_send;
  conn_recv := fun n =>
    match conn_recv n with
    | (inl e, n') => (inl e, n')
    | (inr p, n') => (inr (forget_plain p), n')
    end;
  conn_recv_one := fun n =>
    match conn_recv_one n with
    | (inl e, n') => (inl e, n')
    | (inr po, n') => (inr (forget_one po), n')
    end;
  conn_close := conn_close
|}.

(** [m'], which runs on the forgetful connection, does what [m] does on the
    connection itself, up to the two fields forgotten in the record. *)
Definition same_run {Net A : Type} (m m' : M Net A) : Prop :=
  forall c : Client Net,
    m' (forget_client c) = (fst (m c), forget_client (snd (m c))).

(** ** The exposure bias widget: what a draw adds to the image *)

(** The strings a draw of [val] adds to the image of a widget with the
    origin [o] and the default colour [dc]: those it adds to the empty image
    of such a widget. *)
Definition bias_ops (Width : Z) (o : Point26_6) (dc : Colour) (val : Z) : list DrawOp :=
  img (snd (drawFujiExposureBiasCompensation Width (mkWidget o o dc dc []) val)).

Definition bias_outcome (Width : Z) (o : Point26_6) (dc : Colour) (val : Z) : Outcome :=
  fst (drawFujiExposureBiasCompensation Width (mkWidget o o dc dc []) val).

(** [s] and [s'] have the same length and the same runes, except possibly
    at index [i]. *)
Definition differs_at_most_at (s s' : list ascii) (i : nat) : Prop :=
  List.length s = List.length s'
  /\ forall j : nat, j <> i -> nth_error s j = nth_error s' j.

(** The exposure bias value nearest to [k] thirds of a stop, in thousandths
    of a stop: 333 for 1, 667 for 2, 1000 for 3, -333 for -1. *)
Definition nearest_third (k : Z) : Z := (2000 * k + 3) / 6.

(** The same, cut toward zero: 333 for 1, 666 for 2, 1000 for 3. *)
Definition truncated_third (k : Z) : Z := Z.quot (1000 * k) 3.

(** ** The commands of the CLI (the later version of the commands file)

    A command takes the client and the words that follow its name, and
    returns the reply as a string. The client's methods,
    [formatDeviceProperty], [ptpfmt.HexStringToUint64], [ioutil.WriteFile],
    [hex.Dump] and the verbs of [fmt] are outside the translated files: what
    they return is a parameter, and the calls a command makes on the client
    and on the file system are recorded in order. The calls of [c.Debugf]
    write to the log only and are left out. *)

Definition nl : string := String (ascii_of_nat 10) EmptyString.

Inductive CommandCall : Type :=
| did_InitiateCapture
| did_WriteFile (name : string) (data : list Z) (perm : Z)
| did_SetDeviceProperty (code : Z) (val : Z)
| did_OperationRequestRaw (code : Z) (params : list Z).

Inductive Reply : Type :=
| Replied (s : string)
| reply_index_out_of_range.

Section Commands.

Variable formatDeviceProperty : string -> error + Z.
(** [HexStringToUint64 s bitSize] *)
Variable HexStringToUint64 : string -> Z -> error + Z.
Variable InitiateCapture : error + list Z.
Variable WriteFile : string -> list Z -> Z -> option error.
Variable SetDeviceProperty : Z -> Z -> option error.
Variable OperationRequestRaw : Z -> list Z -> error + list (list Z).
(** The verbs [%#x] and [%d] of [fmt], and [hex.Dump]. *)
Variable fmt_hex : Z -> string.
Variable fmt_dec : Z -> string.
Variable hex_Dump : list Z -> string.

Open Scope string_scope.

Definition unknown (f : list string) : Reply * list CommandCall :=
  (Replied ("unknown command" ++ nl), []).

Definition capture (f : list string) : Reply * list CommandCall :=
  match InitiateCapture with
  | inl err => (Replied (Error err), [did_InitiateCapture])
  | inr res =>
      match f with
      | [f0] =>                                   (* len(f) == 1 *)
          match WriteFile f0 res 420 with         (* 0644 *)
          | Some err =>
              (Replied (Error err ++ nl),
               [did_InitiateCapture; did_WriteFile f0 res 420])
          | None =>
              (Replied ("Image preview saved to " ++ f0 ++ nl),
               [did_InitiateCapture; did_WriteFile f0 res 420])
          end
      | _ => (Replied ("Image captured, check the camera" ++ nl), [did_InitiateCapture])
      end
  end.

Definition set (f : list string) : Reply * list CommandCall :=
  match f with
  | [] => (reply_index_out_of_range, [])          (* f[0] *)
  | f0 :: f' =>
      match formatDeviceProperty f0 with
      | inl err => (Replied ("set error: " ++ Error err ++ nl), [])
      | inr cod =>
          match f' with
          | [] => (reply_index_out_of_range, [])  (* f[1] *)
          | f1 :: _ =>
              match HexStringToUint64 f1 32 with
              | inl err => (Replied ("set error: " ++ Error err ++ nl), [])
              | inr val =>
                  match SetDeviceProperty cod (uint32 val) with
                  | Some err =>
                      (Replied ("set error: " ++ Error err ++ nl),
                       [did_SetDeviceProperty cod (uint32 val)])
                  | None =>
                      (Replied ("property " ++ f0 ++ " successfully set to "
                                ++ fmt_hex val ++ nl),
                       [did_SetDeviceProperty cod (uint32 val)])
                  end
              end
          end
      end
  end.

(** The loop of [opreq] over [params]: every parameter is converted and cut
    to a [uint32]; the first conversion that fails ends the command. *)
Fixpoint opreq_params (params : list string) : error + list Z :=
  match params with
  | [] => inr []
  | param :: rest =>
      match HexStringToUint64 param 64 with
      | inl err => inl err
      | inr conv =>
          match opreq_params rest with
          | inl err => inl err
          | inr p => inr (uint32 conv :: p)
          end
      end
  end.

(** The loop of [opreq] over the data packets received. *)
Fixpoint opreq_dump (d : list (list Z)) (res : string) : string :=
  match d with
  | [] => res
  | raw :: rest =>
      opreq_dump rest
        (res ++ nl ++ "Received " ++ fmt_dec (Z.of_nat (List.length raw))
             ++ " bytes. HEX dump:" ++ nl ++ hex_Dump raw)
  end.

Definition opreq (f : list string) : Reply * list CommandCall :=
  match f with
  | [] => (reply_index_out_of_range, [])          (* f[0] *)
  | f0 :: params =>
      match HexStringToUint64 f0 16 with
      | inl err => (Replied ("opreq error: " ++ Error err ++ nl), [])
      | inr cod =>
          match opreq_params params with
          | inl err => (Replied ("opreq error: " ++ Error err ++ nl), [])
          | inr p =>
              match OperationRequestRaw (uint16 cod) p with
              | inl err =>
                  (Replied ("opreq error: " ++ Error err ++ nl),
                   [did_OperationRequestRaw (uint16 cod) p])
              | inr d =>
                  (Replied (opreq_dump d ""),
                   [did_OperationRequestRaw (uint16 cod) p])
              end
          end
      end
  end.

End Commands.

(** * Properties *)

(** ** Integers and bytes *)

Lemma uint32_succ (t d : Z) : uint32 (uint32 (t + d) + 1) = uint32 (t + (d + 1)).
Proof.
  unfold uint32. rewrite Zplus_mod_idemp_l. f_equal. lia.
Qed.

Lemma uint32_add (t d e : Z) : uint32 (uint32 (t + d) + e) = uint32 (t + (d + e)).
Proof.
  unfold uint32. rewrite Zplus_mod_idemp_l. f_equal. lia.
Qed.

Lemma le_bytes_length (n : nat) (v : Z) : List.length (le_bytes n v) = n.
Proof.
  revert v. induction n as [|n IH]; intro v; simpl; [reflexivity | now rewrite IH].
Qed.

Lemma le_bytes_are_bytes (n : nat) (v : Z) : Forall is_byte (le_bytes n v).
Proof.
  revert v. induction n as [|n IH]; intro v; simpl; constructor.
  - unfold is_byte. apply Z.mod_pos_bound. lia.
  - apply IH.
Qed.

Lemma le_value_le_bytes (n : nat) (v : Z) :
  le_value (le_bytes n v) = v mod 256 ^ Z.of_nat n.
Proof.
  revert v. induction n as [|n IH]; intro v.
  - simpl. now rewrite Z.mod_1_r.
  - cbn [le_bytes le_value]. rewrite IH.
    rewrite Nat2Z.inj_succ, Z.pow_succ_r by lia.
    rewrite (Z.rem_mul_r v 256 (256 ^ Z.of_nat n)) by lia.
    reflexivity.
Qed.

(** ** The Fuji InitCommandRequest packet *)

Lemma uuid_Parse_example :
  uuid_Parse "ada5485d-87b2-7f0b-d3d5-ded00278a8c0" = Some example_guid.
Proof. reflexivity. Qed.

Lemma PV_Fuji_bytes : le_bytes 4 PV_Fuji = [0xF2; 0xE4; 0x53; 0x8F].
Proof. reflexivity. Qed.

Lemma firstn_app_exact {A : Type} (n : nat) (l1 l2 : list A) :
  List.length l1 = n -> firstn n (l1 ++ l2) = l1.
Proof.
  intros <-. rewrite firstn_app, Nat.sub_diag, firstn_all. simpl.
  apply app_nil_r.
Qed.

(** C2: the payload of [NewFujiInitCommandRequestPacket g s] is the four
    bytes of the protocol version, then the GUID, then the friendly name,
    and the protocol version is always [0x8F53E4F2]; its first four bytes
    read back as that value; for the GUID
    ada5485d-87b2-7f0b-d3d5-ded00278a8c0 the payload begins with the twenty
    bytes F2 E4 53 8F AD A5 48 5D 87 B2 7F 0B D3 D5 DE D0 02 78 A8 C0,
    whatever the friendly name. *)
Theorem NewFujiInitCommandRequestPacket_payload_layout :
  forall (MarshalString : string -> list Z) (g : list Z) (s : string),
    FujiInitCommandRequestPacket.ProtocolVersion
      (NewFujiInitCommandRequestPacket g s) = 0x8F53E4F2
    /\ FujiInitCommandRequestPacket_Payload MarshalString
         (NewFujiInitCommandRequestPacket g s)
       = [0xF2; 0xE4; 0x53; 0x8F] ++ g ++ MarshalString s
    /\ le_value (firstn 4 (FujiInitCommandRequestPacket_Payload MarshalString
                             (NewFujiInitCommandRequestPacket g s))) = 0x8F53E4F2
    /\ uuid_Parse "ada5485d-87b2-7f0b-d3d5-ded00278a8c0" = Some example_guid
    /\ firstn 20 (FujiInitCommandRequestPacket_Payload MarshalString
                    (NewFujiInitCommandRequestPacket example_guid s))
       = [0xF2; 0xE4; 0x53; 0x8F; 0xAD; 0xA5; 0x48; 0x5D; 0x87; 0xB2;
          0x7F; 0x0B; 0xD3; 0xD5; 0xDE; 0xD0; 0x02; 0x78; 0xA8; 0xC0].
Proof.
  intros MS g s.
  unfold FujiInitCommandRequestPacket_Payload, MarshalLittleEndian,
    NewFujiInitCommandRequestPacket.
  cbn [FujiInitCommandRequestPacket.ProtocolVersion
       FujiInitCommandRequestPacket.GUID
       FujiInitCommandRequestPacket.FriendlyName].
  rewrite PV_Fuji_bytes.
  split; [reflexivity|].
  split; [reflexivity|].
  split; [reflexivity|].
  split; [apply uuid_Parse_example|].
  change ([0xF2; 0xE4; 0x53; 0x8F] ++ example_guid ++ MS s)
    with (([0xF2; 0xE4; 0x53; 0x8F] ++ example_guid) ++ MS s).
  apply firstn_app_exact. reflexivity.
Qed.

(** ** The success predicate of the responses *)

Lemma success_codes `{PtpConstants} (code : Z) :
  (code =? RC_OK) || (code =? RC_SessionAlreadyOpen) || (code =? RC_Fuji_DevicePropValue)
  = true
  <-> code = RC_OK \/ code = RC_SessionAlreadyOpen \/ code = RC_Fuji_DevicePropValue.
Proof.
  rewrite !orb_true_iff, !Z.eqb_eq. tauto.
Qed.

(** C3: for a plain response [p] and for a one-parameter response [po],
    [WasSuccessfull] is true exactly when the operation response code is
    [RC_OK], [RC_SessionAlreadyOpen] or [RC_Fuji_DevicePropValue], which is
    [0x1015]. *)
Theorem WasSuccessfull_iff_success_code :
  forall `{PtpConstants}
         (p : FujiOperationResponsePacket.t) (po : FujiOperationResponsePacketOne.t),
    (FujiOperationResponsePacket.WasSuccessfull p = true
     <-> FujiOperationResponsePacket.OperationResponseCode p = RC_OK
         \/ FujiOperationResponsePacket.OperationResponseCode p = RC_SessionAlreadyOpen
         \/ FujiOperationResponsePacket.OperationResponseCode p = RC_Fuji_DevicePropValue)
    /\ (FujiOperationResponsePacketOne.WasSuccessfull po = true
        <-> FujiOperationResponsePacketOne.OperationResponseCode po = RC_OK
            \/ FujiOperationResponsePacketOne.OperationResponseCode po = RC_SessionAlreadyOpen
            \/ FujiOperationResponsePacketOne.OperationResponseCode po = RC_Fuji_DevicePropValue)
    /\ RC_Fuji_DevicePropValue = 0x1015.
Proof.
  intros C p po. split; [|split].
  - apply success_codes.
  - apply success_codes.
  - reflexivity.
Qed.

(** ** The handshake: what every run does *)

Section Handshake.

Context `{PtpConstants} {Net : Type} `{Transport Net}.

Lemma run_spec_ret {A : Type} (a : A) : run_spec (ret (Net := Net) a) 0.
Proof.
  intro c. exists []. simpl. rewrite app_nil_r. auto.
Qed.

Lemma run_spec_TransactionId : run_spec (TransactionId (Net := Net)) 0.
Proof.
  intro c. exists []. simpl. rewrite app_nil_r. auto.
Qed.

Lemma run_spec_incrementTransactionId : run_spec (incrementTransactionId (Net := Net)) 1.
Proof.
  intro c. exists [EvIncrement]. simpl. repeat split.
  - constructor; [discriminate | constructor].
  - constructor; [reflexivity | constructor].
Qed.

Lemma run_spec_SendPacketToCmdDataConn (pkt : FujiOperationRequestPacket.t) :
  run_spec (SendPacketToCmdDataConn pkt) 0.
Proof.
  intro c. exists [EvSend pkt (fst (conn_send (conn c) pkt))].
  unfold SendPacketToCmdDataConn.
  destruct (conn_send (conn c) pkt) as [[e|] n]; simpl.
  - repeat split.
    + constructor; [discriminate | constructor].
    + exists [], (EvSend pkt (Some e)). auto.
  - repeat split.
    + constructor; [discriminate | constructor].
    + constructor; [reflexivity | constructor].
Qed.

Lemma run_spec_bind {A B : Type} (m : M Net A) (k : A -> M Net B) (d1 d2 d : nat) :
  run_spec m d1 ->
  (forall a, run_spec (k a) d2) ->
  d = (d2 + d1)%nat ->
  run_spec (bind m k) d.
Proof.
  intros Hm Hk -> c.
  destruct (Hm c) as (evs1 & E1 & NC1 & R1).
  unfold bind. destruct (m c) as [[a|e] c1]; simpl in *.
  - destruct (Hk a c1) as (evs2 & E2 & NC2 & R2).
    destruct R1 as [Q1 T1].
    exists (evs1 ++ evs2). rewrite E2, E1, app_assoc.
    split; [reflexivity|]. split; [apply Forall_app; auto|].
    destruct (fst (k a c1)) as [b|e].
    + destruct R2 as [Q2 T2]. split; [apply Forall_app; auto|].
      rewrite T2, T1. unfold incremented. now rewrite Nat.iter_add.
    + destruct R2 as (pre & ev & -> & Qp & S).
      exists (evs1 ++ pre), ev. rewrite app_assoc.
      split; [reflexivity|]. split; [apply Forall_app; auto | exact S].
  - exists evs1. auto.
Qed.

(** A read followed by the test of the response that was read. *)
Lemma run_spec_wait_check {B : Type}
      (k : FujiOperationResponsePacket.t -> M Net B) (d : nat) :
  (forall p, run_spec (k p) d) ->
  run_spec
    (bind WaitForPacketFromCmdDataConn
       (fun p => if negb (FujiOperationResponsePacket.WasSuccessfull p)
                 then raise (FujiOperationResponsePacket.ReasonAsError p)
                 else k p)) d.
Proof.
  intros Hk c. unfold bind, WaitForPacketFromCmdDataConn.
  destruct (conn_recv (conn c)) as [[e|p] n]; simpl.
  - exists [EvWait (inl e)]. repeat split.
    + constructor; [discriminate | constructor].
    + exists [], (EvWait (inl e)). auto.
  - destruct (FujiOperationResponsePacket.WasSuccessfull p) eqn:S; simpl.
    + set (c1 := mkClient _ _ _).
      destruct (Hk p c1) as (evs & E & NC & R).
      exists (EvWait (inr (RespPlain p)) :: evs).
      rewrite E. subst c1. simpl. rewrite <- app_assoc.
      split; [reflexivity|]. split; [constructor; [discriminate | exact NC]|].
      destruct (fst (k p _)) as [b|e].
      * destruct R as [Q T]. split; [|exact T].
        constructor; [simpl; now rewrite S | exact Q].
      * destruct R as (pre & ev & -> & Qp & Se).
        exists (EvWait (inr (RespPlain p)) :: pre), ev.
        split; [reflexivity|]. split; [|exact Se].
        constructor; [simpl; now rewrite S | exact Qp].
    + exists [EvWait (inr (RespPlain p))]. repeat split.
      * constructor; [discriminate | constructor].
      * exists [], (EvWait (inr (RespPlain p))).
        split; [reflexivity|]. split; [constructor|]. simpl. now rewrite S.
Qed.

Lemma run_spec_wait_check_one {B : Type}
      (k : FujiOperationResponsePacketOne.t -> M Net B) (d : nat) :
  (forall po, run_spec (k po) d) ->
  run_spec
    (bind WaitForPacketOneFromCmdDataConn
       (fun po => if negb (FujiOperationResponsePacketOne.WasSuccessfull po)
                  then raise (FujiOperationResponsePacketOne.ReasonAsError po)
                  else k po)) d.
Proof.
  intros Hk c. unfold bind, WaitForPacketOneFromCmdDataConn.
  destruct (conn_recv_one (conn c)) as [[e|po] n]; simpl.
  - exists [EvWait (inl e)]. repeat split.
    + constructor; [discriminate | constructor].
    + exists [], (EvWait (inl e)). auto.
  - destruct (FujiOperationResponsePacketOne.WasSuccessfull po) eqn:S; simpl.
    + set (c1 := mkClient _ _ _).
      destruct (Hk po c1) as (evs & E & NC & R).
      exists (EvWait (inr (RespOne po)) :: evs).
      rewrite E. subst c1. simpl. rewrite <- app_assoc.
      split; [reflexivity|]. split; [constructor; [discriminate | exact NC]|].
      destruct (fst (k po _)) as [b|e].
      * destruct R as [Q T]. split; [|exact T].
        constructor; [simpl; now rewrite S | exact Q].
      * destruct R as (pre & ev & -> & Qp & Se).
        exists (EvWait (inr (RespOne po)) :: pre), ev.
        split; [reflexivity|]. split; [|exact Se].
        constructor; [simpl; now rewrite S | exact Qp].
    + exists [EvWait (inr (RespOne po))]. repeat split.
      * constructor; [discriminate | constructor].
      * exists [], (EvWait (inr (RespOne po))).
        split; [reflexivity|]. split; [constructor|]. simpl. now rewrite S.
Qed.

End Handshake.

Section HandshakeRuns.

Context `{PtpConstants} {Net : Type} `{Transport Net}.

Ltac run_step :=
  first
    [ apply run_spec_wait_check; intro
    | apply run_spec_wait_check_one; intro
    | apply run_spec_incrementTransactionId
    | apply run_spec_ret
    | eapply run_spec_bind;
      [ first [ apply run_spec_TransactionId
              | apply run_spec_SendPacketToCmdDataConn
              | apply run_spec_incrementTransactionId ]
      | intro
      | ] ].

Lemma run_spec_stepOpenSession : run_spec (stepOpenSession (Net := Net)) 1.
Proof.
  unfold stepOpenSession. repeat run_step; reflexivity.
Qed.

Lemma run_spec_stepDeclareInitSequence :
  run_spec (stepDeclareInitSequence (Net := Net)) 1.
Proof.
  unfold stepDeclareInitSequence. repeat run_step; reflexivity.
Qed.

Lemma run_spec_stepNegotiateAppVersion :
  run_spec (stepNegotiateAppVersion (Net := Net)) 2.
Proof.
  unfold stepNegotiateAppVersion. repeat run_step; reflexivity.
Qed.

Lemma run_spec_stepInitiateOpenCapture :
  run_spec (stepInitiateOpenCapture (Net := Net)) 0.
Proof.
  unfold stepInitiateOpenCapture. repeat run_step; reflexivity.
Qed.

Lemma run_spec_FujiInitSequence : run_spec (FujiInitSequence (Net := Net)) 4.
Proof.
  unfold FujiInitSequence.
  apply (run_spec_bind _ _ 1 3);
    [apply run_spec_stepOpenSession | intros _ | reflexivity].
  apply (run_spec_bind _ _ 1 2);
    [apply run_spec_stepDeclareInitSequence | intros _ | reflexivity].
  apply (run_spec_bind _ _ 2 0);
    [apply run_spec_stepNegotiateAppVersion | intros _ | reflexivity].
  apply run_spec_stepInitiateOpenCapture.
Qed.

(** An event that stops the handshake is the last one of the run, and its
    error is the one returned. *)
Lemma stopping_event_is_last {A : Type} (r : Result A) (evs pre post : list Event)
      (ev : Event) (e : error) :
  match r with
  | Ok _ => Forall (fun ev => stops ev = None) evs
  | Err e' =>
      exists pre' ev',
        evs = pre' ++ [ev']
        /\ Forall (fun ev => stops ev = None) pre'
        /\ stops ev' = Some e'
  end ->
  evs = pre ++ ev :: post ->
  stops ev = Some e ->
  post = [] /\ r = Err e.
Proof.
  intros R E S.
  assert (In ev evs) as I by (rewrite E; apply in_or_app; right; left; reflexivity).
  destruct r as [a|e'].
  - rewrite Forall_forall in R. rewrite (R ev I) in S. discriminate.
  - destruct R as (pre' & ev' & E' & Q & S').
    destruct (exists_last (l := ev :: post)) as (body & x & L); [discriminate|].
    rewrite E', L, app_assoc in E.
    apply app_inj_tail in E. destruct E as [-> ->].
    destruct post as [|y post].
    + split; [reflexivity|].
      assert (body = [] /\ x = ev) as [_ ->].
      { destruct body as [|b body]; simpl in L.
        - inversion L. auto.
        - inversion L. destruct body; discriminate. }
      congruence.
    + exfalso. destruct body as [|b body]; simpl in L; [discriminate|].
      inversion L; subst b.
      rewrite Forall_forall in Q.
      rewrite Q in S; [discriminate|].
      apply in_or_app. right. left. reflexivity.
Qed.

Lemma incremented_4 (t : Z) : incremented 4 t = uint32 (t + 4).
Proof.
  unfold incremented. cbn [Nat.iter nat_rect].
  rewrite !uint32_succ, !uint32_add. reflexivity.
Qed.

Lemma bind_Ok_inv {A B : Type} (m : M Net A) (k : A -> M Net B)
      (c c' : Client Net) (b : B) :
  bind m k c = (Ok b, c') ->
  exists a c1, m c = (Ok a, c1) /\ k a c1 = (Ok b, c').
Proof.
  unfold bind. destruct (m c) as [[a|e] c1]; intro E.
  - exists a, c1. auto.
  - discriminate.
Qed.

End HandshakeRuns.

(** ** The handshake: the run without an error, event by event *)

(** Runs the hypothesis [E : m c = (Ok tt, c')] through the calls of [m] in
    order: a call that fails contradicts [E]. *)
Ltac exec E :=
  repeat
    (simpl in E;
     match type of E with
     | context [conn_send ?n ?p] =>
         first [is_var n | match n with conn _ => idtac end];
         let e := fresh "e" in
         let n' := fresh "n" in
         destruct (conn_send n p) as [[e|] n']; [discriminate E|]
     | context [conn_recv ?n] =>
         first [is_var n | match n with conn _ => idtac end];
         let e := fresh "e" in
         let p := fresh "p" in
         let n' := fresh "n" in
         destruct (conn_recv n) as [[e|p] n']; [discriminate E|]
     | context [conn_recv_one ?n] =>
         first [is_var n | match n with conn _ => idtac end];
         let e := fresh "e" in
         let p := fresh "po" in
         let n' := fresh "n" in
         destruct (conn_recv_one n) as [[e|p] n']; [discriminate E|]
     | context [FujiOperationResponsePacket.WasSuccessfull ?p] =>
         is_var p;
         let S := fresh "S" in
         destruct (FujiOperationResponsePacket.WasSuccessfull p) eqn:S;
         [|discriminate E]
     | context [FujiOperationResponsePacketOne.WasSuccessfull ?p] =>
         is_var p;
         let S := fresh "S" in
         destruct (FujiOperationResponsePacketOne.WasSuccessfull p) eqn:S;
         [|discriminate E]
     end).

Ltac unfold_client :=
  unfold bind, TransactionId, SendPacketToCmdDataConn,
    WaitForPacketFromCmdDataConn, WaitForPacketOneFromCmdDataConn,
    incrementTransactionId, raise, ret.

Ltac close_run E :=
  simpl in E; inversion E; subst; clear E;
  repeat eexists; try (rewrite <- ?app_assoc; reflexivity); eassumption.

Section HandshakeTrace.

Context `{PtpConstants} {Net : Type} `{Transport Net}.

Lemma stepOpenSession_Ok (c c' : Client Net) :
  stepOpenSession c = (Ok tt, c') ->
  exists p n,
    FujiOperationResponsePacket.WasSuccessfull p = true
    /\ c' = mkClient (uint32 (transactionId c + 1)) n
              (events c ++ traceOpenSession (transactionId c) p).
Proof.
  unfold stepOpenSession, traceOpenSession. unfold_client.
  intro E. exec E. close_run E.
Qed.

Lemma stepDeclareInitSequence_Ok (c c' : Client Net) :
  stepDeclareInitSequence c = (Ok tt, c') ->
  exists p n,
    FujiOperationResponsePacket.WasSuccessfull p = true
    /\ c' = mkClient (uint32 (transactionId c + 1)) n
              (events c ++ traceDeclareInitSequence (transactionId c) p).
Proof.
  unfold stepDeclareInitSequence, traceDeclareInitSequence. unfold_client.
  intro E. exec E. close_run E.
Qed.

Lemma stepNegotiateAppVersion_Ok (c c' : Client Net) :
  stepNegotiateAppVersion c = (Ok tt, c') ->
  exists po p1 p2 n,
    (FujiOperationResponsePacketOne.WasSuccessfull po = true
     /\ FujiOperationResponsePacket.WasSuccessfull p1 = true
     /\ FujiOperationResponsePacket.WasSuccessfull p2 = true)
    /\ c' = mkClient (uint32 (uint32 (transactionId c + 1) + 1)) n
              (events c ++ traceNegotiateAppVersion (transactionId c) po p1 p2).
Proof.
  unfold stepNegotiateAppVersion, traceNegotiateAppVersion. unfold_client.
  intro E. exec E. close_run E.
Qed.

Lemma stepInitiateOpenCapture_Ok (c c' : Client Net) :
  stepInitiateOpenCapture c = (Ok tt, c') ->
  exists p n,
    FujiOperationResponsePacket.WasSuccessfull p = true
    /\ c' = mkClient (transactionId c) n
              (events c ++ traceInitiateOpenCapture (transactionId c) p).
Proof.
  unfold stepInitiateOpenCapture, traceInitiateOpenCapture. unfold_client.
  intro E. exec E. close_run E.
Qed.

(** The whole handshake, when it returns without an error. *)
Lemma FujiInitSequence_Ok (c c' : Client Net) :
  FujiInitSequence c = (Ok tt, c') ->
  exists p1 p2 po p3 p4 p5,
    let t := transactionId c in
    (FujiOperationResponsePacket.WasSuccessfull p1 = true
     /\ FujiOperationResponsePacket.WasSuccessfull p2 = true
     /\ FujiOperationResponsePacketOne.WasSuccessfull po = true
     /\ FujiOperationResponsePacket.WasSuccessfull p3 = true
     /\ FujiOperationResponsePacket.WasSuccessfull p4 = true
     /\ FujiOperationResponsePacket.WasSuccessfull p5 = true)
    /\ stepOpenSession c
       = (Ok tt, mkClient (uint32 (t + 1)) (conn (snd (stepOpenSession c)))
                   (events c ++ traceOpenSession t p1))
    /\ events c'
       = events c
         ++ traceOpenSession t p1
         ++ traceDeclareInitSequence (uint32 (t + 1)) p2
         ++ traceNegotiateAppVersion (uint32 (t + 2)) po p3 p4
         ++ traceInitiateOpenCapture (uint32 (t + 4)) p5
    /\ transactionId c' = uint32 (t + 4).
Proof.
  unfold FujiInitSequence. intro E.
  apply bind_Ok_inv in E. destruct E as ([] & c1 & E1 & E).
  apply bind_Ok_inv in E. destruct E as ([] & c2 & E2 & E).
  apply bind_Ok_inv in E. destruct E as ([] & c3 & E3 & E4).
  pose proof E1 as E1'.
  apply stepOpenSession_Ok in E1. destruct E1 as (p1 & n1 & S1 & ->).
  apply stepDeclareInitSequence_Ok in E2. destruct E2 as (p2 & n2 & S2 & ->).
  apply stepNegotiateAppVersion_Ok in E3.
  destruct E3 as (po & p3 & p4 & n3 & (So & S3 & S4) & ->).
  apply stepInitiateOpenCapture_Ok in E4. destruct E4 as (p5 & n4 & S5 & ->).
  exists p1, p2, po, p3, p4, p5. cbv zeta. cbn [transactionId events conn].
  rewrite !uint32_succ, ?uint32_add, <- !app_assoc. cbn [Z.add Pos.add Pos.succ].
  split; [tauto|]. split; [|split; reflexivity].
  rewrite E1'. reflexivity.
Qed.

End HandshakeTrace.

(** ** The handshake: the claims *)

(** C4: in every run of [FujiInitSequence], over any connection, a response
    that was read and is not successful is the last event of the run: the
    function returns the canonical name of its response code as an error,
    nothing is sent or read after it, and the run never closes the
    connection. *)
Theorem FujiInitSequence_stops_at_unsuccessful_response :
  forall `{PtpConstants} (Net : Type) `{Transport Net} (c : Client Net),
  exists evs : list Event,
    events (snd (FujiInitSequence c)) = events c ++ evs
    /\ ~ In EvClose evs
    /\ forall (pre : list Event) (r : Response) (post : list Event),
         evs = pre ++ EvWait (inr r) :: post ->
         response_WasSuccessfull r = false ->
         post = []
         /\ fst (FujiInitSequence c)
            = Err (errors_New (OperationResponseCodeAsString (response_code r))).
Proof.
  intros C Net T c.
  destruct (run_spec_FujiInitSequence c) as (evs & E & NC & R).
  exists evs. split; [exact E|]. split.
  - intro I. rewrite Forall_forall in NC. exact (NC _ I eq_refl).
  - intros pre r post Eevs S.
    eapply stopping_event_is_last; [| exact Eevs |].
    + destruct (fst (FujiInitSequence c)); [apply R | exact R].
    + destruct r as [p|po]; simpl in S |- *; rewrite S; reflexivity.
Qed.


(** C10: in a run of [FujiInitSequence] that returns without an error, the
    events of the third exchange are, in this order: the
    [GetDevicePropValue(0xDF24)] request; the read of a one-parameter
    response [po]; the read of a plain response; an increment of the
    transaction identifier; the two packets of
    [SetDevicePropValue(0xDF24)], the second of them a DataOut packet whose
    [Parameter1] is the [Parameter1] of [po]; the read of a plain response;
    a second increment. The OpenCapture request that follows carries the
    identifier of the [GetDevicePropValue] request plus two. *)
Theorem FujiInitSequence_negotiates_app_version :
  forall `{PtpConstants} (Net : Type) `{Transport Net} (c : Client Net),
    fst (FujiInitSequence c) = Ok tt ->
    exists (p1 p2 : FujiOperationResponsePacket.t)
           (po : FujiOperationResponsePacketOne.t)
           (p3 p4 p5 : FujiOperationResponsePacket.t) (t : Z),
      t = uint32 (transactionId c + 2)
      /\ events (snd (FujiInitSequence c))
         = events c
           ++ (traceOpenSession (transactionId c) p1
               ++ traceDeclareInitSequence (uint32 (transactionId c + 1)) p2)
           ++ [ EvSend (FujiOperationRequestPacket.Build (uint16 DP_NoDataOrDataIn)
                          OC_GetDevicePropValue t 0xDF24 0 0 0 0) None;
                EvWait (inr (RespOne po));
                EvWait (inr (RespPlain p3));
                EvIncrement;
                EvSend (FujiOperationRequestPacket.Build (uint16 DP_NoDataOrDataIn)
                          OC_SetDevicePropValue (uint32 (t + 1)) 0xDF24 0 0 0 0) None;
                EvSend (FujiOperationRequestPacket.Build (uint16 DP_DataOut)
                          OC_SetDevicePropValue (uint32 (t + 1))
                          (FujiOperationResponsePacketOne.Parameter1 po) 0 0 0 0) None;
                EvWait (inr (RespPlain p4));
                EvIncrement ]
           ++ [ EvSend (FujiOperationRequestPacket.Build (uint16 DP_NoDataOrDataIn)
                          OC_InitiateOpenCapture (uint32 (t + 2)) 0 0 0 0 0) None;
                EvWait (inr (RespPlain p5)) ].
Proof.
  intros C Net T c Run.
  destruct (FujiInitSequence c) as [[[]|e] c'] eqn:E; [|discriminate].
  apply FujiInitSequence_Ok in E.
  destruct E as (p1 & p2 & po & p3 & p4 & p5 & _ & _ & Ev & _).
  cbv zeta in Ev.
  exists p1, p2, po, p3, p4, p5, (uint32 (transactionId c + 2)).
  split; [reflexivity|].
  cbn [snd]. rewrite Ev, <- !app_assoc.
  rewrite (uint32_add (transactionId c) 2 2).
  reflexivity.
Qed.

(** ** The handshake against the scripted responder *)

Section Scenarios.

#[local] Existing Instance ptp_standard.



Lemma FujiInitSequence_negotiates_app_version_witness :
  exists (p1 p2 : FujiOperationResponsePacket.t)
         (po : FujiOperationResponsePacketOne.t)
         (p3 p4 p5 : FujiOperationResponsePacket.t) (t : Z),
    t = uint32 (transactionId (scenario_success 1) + 2)
    /\ events (snd (FujiInitSequence (scenario_success 1)))
       = events (scenario_success 1)
         ++ (traceOpenSession (transactionId (scenario_success 1)) p1
             ++ traceDeclareInitSequence
                  (uint32 (transactionId (scenario_success 1) + 1)) p2)
         ++ [ EvSend (FujiOperationRequestPacket.Build (uint16 DP_NoDataOrDataIn)
                        OC_GetDevicePropValue t 0xDF24 0 0 0 0) None;
              EvWait (inr (RespOne po));
              EvWait (inr (RespPlain p3));
              EvIncrement;
              EvSend (FujiOperationRequestPacket.Build (uint16 DP_NoDataOrDataIn)
                        OC_SetDevicePropValue (uint32 (t + 1)) 0xDF24 0 0 0 0) None;
              EvSend (FujiOperationRequestPacket.Build (uint16 DP_DataOut)
                        OC_SetDevicePropValue (uint32 (t + 1))
                        (FujiOperationResponsePacketOne.Parameter1 po) 0 0 0 0) None;
              EvWait (inr (RespPlain p4));
              EvIncrement ]
         ++ [ EvSend (FujiOperationRequestPacket.Build (uint16 DP_NoDataOrDataIn)
                        OC_InitiateOpenCapture (uint32 (t + 2)) 0 0 0 0 0) None;
              EvWait (inr (RespPlain p5)) ].
Proof.
  apply (FujiInitSequence_negotiates_app_version (list Response) (scenario_success 1)).
  reflexivity.
Defined.

(** The echo of the handshake-success scenario carries the application
    version [0x00020001] that the responder reported. *)
Example scenario_success_echo :
  nth_error (events (snd (FujiInitSequence (scenario_success 1)))) 12
  = Some (EvSend (FujiOperationRequestPacket.Build 2 0x1016 4 0x00020001 0 0 0 0) None).
Proof. reflexivity. Qed.

(** The friendly-name-mismatch scenario: the second exchange is answered
    with [0x2019]; the handshake returns the name of that code, after two
    exchanges and one increment, and the third response of the script is
    still unread. *)
Example scenario_busy_run :
  FujiInitSequence (scenario_busy 0)
  = (Err (errors_New "RC_DeviceBusy"),
     mkClient 1 [respond 0x2001 2]
       [ EvSend (FujiOperationRequestPacket.Build 1 0x1002 0 1 0 0 0 0) None;
         EvWait (inr (respond 0x2001 0));
         EvIncrement;
         EvSend (FujiOperationRequestPacket.Build 1 0x1016 1 0xDF01 0 0 0 0) None;
         EvSend (FujiOperationRequestPacket.Build 2 0x1016 1 5 0 0 0 0) None;
         EvWait (inr (respond 0x2019 1)) ]).
Proof. reflexivity. Qed.

End Scenarios.

(** ** Slices *)

Lemma set_index_Some {A : Type} (s : list A) (i : Z) (r : A) :
  0 <= i < Z.of_nat (List.length s) ->
  set_index s i r = Some (firstn (Z.to_nat i) s ++ r :: skipn (S (Z.to_nat i)) s).
Proof.
  intros [Lo Hi]. unfold set_index.
  apply Z.leb_le in Lo. apply Z.ltb_lt in Hi. now rewrite Lo, Hi.
Qed.

Lemma set_index_None {A : Type} (s : list A) (i : Z) (r : A) :
  i < 0 \/ Z.of_nat (List.length s) <= i ->
  set_index s i r = None.
Proof.
  intro O. unfold set_index.
  destruct (0 <=? i) eqn:Lo; [|reflexivity].
  destruct (i <? Z.of_nat (List.length s)) eqn:Hi; [|reflexivity].
  apply Z.leb_le in Lo. apply Z.ltb_lt in Hi. lia.
Qed.

Lemma set_index_inv {A : Type} (s s' : list A) (i : Z) (r : A) :
  set_index s i r = Some s' ->
  0 <= i < Z.of_nat (List.length s)
  /\ s' = firstn (Z.to_nat i) s ++ r :: skipn (S (Z.to_nat i)) s.
Proof.
  unfold set_index.
  destruct (0 <=? i) eqn:Lo; [|discriminate].
  destruct (i <? Z.of_nat (List.length s)) eqn:Hi; [|discriminate].
  apply Z.leb_le in Lo. apply Z.ltb_lt in Hi.
  simpl. intro E. inversion E. auto.
Qed.

Lemma set_index_length {A : Type} (s s' : list A) (i : Z) (r : A) :
  set_index s i r = Some s' -> List.length s' = List.length s.
Proof.
  intro E. apply set_index_inv in E. destruct E as [[Lo Hi] ->].
  rewrite length_app. cbn [List.length].
  rewrite length_firstn, length_skipn. lia.
Qed.

Lemma set_index_nth {A : Type} (s s' : list A) (i : Z) (r : A) :
  set_index s i r = Some s' -> nth_error s' (Z.to_nat i) = Some r.
Proof.
  intro E. apply set_index_inv in E. destruct E as [[Lo Hi] ->].
  rewrite nth_error_app2; rewrite length_firstn.
  - replace (Z.to_nat i - Nat.min (Z.to_nat i) (List.length s))%nat with 0%nat by lia.
    reflexivity.
  - lia.
Qed.

Lemma Z_range_In (lo : Z) (n : nat) (x : Z) :
  lo <= x < lo + Z.of_nat n -> In x (Z_range lo n).
Proof.
  intro B. unfold Z_range. apply in_map_iff.
  exists (Z.to_nat (x - lo)). split; [lia|].
  apply in_seq. lia.
Qed.

Lemma int16_idempotent (v : Z) : int16 (int16 v) = int16 v.
Proof.
  unfold int16.
  replace ((v + 2 ^ 15) mod 2 ^ 16 - 2 ^ 15 + 2 ^ 15) with ((v + 2 ^ 15) mod 2 ^ 16) by lia.
  now rewrite Z.mod_mod by lia.
Qed.

Lemma int16_range (v : Z) : - 32768 <= int16 v <= 32767.
Proof.
  unfold int16. pose proof (Z.mod_pos_bound (v + 2 ^ 15) (2 ^ 16) ltac:(lia)). lia.
Qed.

Lemma int16_small (x : Z) : - 32768 <= x <= 32767 -> int16 x = x.
Proof.
  intro B. unfold int16. rewrite Z.mod_small; lia.
Qed.

(** ** The marker position *)


Lemma markerPosition_int16 (val : Z) : markerPosition val = markerPosition (int16 val).
Proof.
  unfold markerPosition. now rewrite int16_idempotent.
Qed.

Lemma same_marker_eq (a b : Z * bool * bool) : same_marker a b = true -> a = b.
Proof.
  destruct a as [[p o] z], b as [[p' o'] z']. unfold same_marker.
  rewrite !andb_true_iff, Z.eqb_eq, !eqb_true_iff.
  intros [[-> ->] ->]. reflexivity.
Qed.

(** Within three stops the floating-point computation of the source agrees
    with the integer reading, and the position is on the ruler: checked on
    each of the 6001 values. *)
Lemma markerPosition_within_three_stops_checked :
  forallb (fun x => same_marker (markerPosition x) (markerPosition_spec x)
                    && (0 <=? fst (fst (markerPosition_spec x)))
                    && (fst (fst (markerPosition_spec x)) <=? 18))
          (Z_range (- 3000) (Z.to_nat 6001)) = true.
Proof. vm_compute. reflexivity. Qed.

Lemma markerPosition_within_three_stops (val : Z) :
  - 3000 <= int16 val <= 3000 ->
  markerPosition val = markerPosition_spec (int16 val)
  /\ 0 <= fst (fst (markerPosition_spec (int16 val))) <= 18.
Proof.
  intro B. rewrite markerPosition_int16.
  pose proof markerPosition_within_three_stops_checked as C.
  rewrite forallb_forall in C.
  specialize (C (int16 val)). 
  rewrite !andb_true_iff, Z.leb_le, Z.leb_le in C.
  destruct C as [[S Lo] Hi]; [apply Z_range_In; lia|].
  split; [now apply same_marker_eq | lia].
Qed.

(** On the whole stops the position has no third-stop offset: checked on
    each of the 65 multiples of 1000 that an [int16] holds. *)
Lemma markerPosition_whole_stops_checked :
  forallb (fun k => same_marker (markerPosition (1000 * k))
                                (9 + 3 * k, k =? 0, true))
          (Z_range (- 32) (Z.to_nat 65)) = true.
Proof. vm_compute. reflexivity. Qed.

Lemma markerPosition_whole_stops (val : Z) :
  int16 val mod 1000 = 0 ->
  markerPosition val = (9 + 3 * (int16 val / 1000), int16 val =? 0, true).
Proof.
  intro D. rewrite markerPosition_int16.
  pose proof (int16_range val) as B.
  apply Z.mod_divide in D; [|lia]. destruct D as [k K].
  rewrite K, Z.div_mul by lia.
  replace (k * 1000) with (1000 * k) by lia.
  pose proof markerPosition_whole_stops_checked as C.
  rewrite forallb_forall in C.
  assert (In k (Z_range (- 32) (Z.to_nat 65))) as I by (apply Z_range_In; lia).
  apply C, same_marker_eq in I. rewrite I.
  f_equal. f_equal.
  destruct (Z.eqb_spec k 0), (Z.eqb_spec (1000 * k) 0); try reflexivity; lia.
Qed.

(** ** The widget: what each method leaves of the fields *)

Section WidgetFields.

Variable Width : Z.
Variable w : Widget.

Lemma img_DrawString (s : list ascii) :
  img (DrawString Width w s) = img w ++ [mkDrawOp (Dot w) (colour w) s].
Proof. reflexivity. Qed.

Lemma colour_DrawString (s : list ascii) : colour (DrawString Width w s) = colour w.
Proof. reflexivity. Qed.

Lemma origin_DrawString (s : list ascii) : origin (DrawString Width w s) = origin w.
Proof. reflexivity. Qed.

Lemma defaultColour_DrawString (s : list ascii) :
  defaultColour (DrawString Width w s) = defaultColour w.
Proof. reflexivity. Qed.

Lemma img_ResetToOrigin : img (ResetToOrigin w) = img w.
Proof. reflexivity. Qed.

Lemma Dot_ResetToOrigin : Dot (ResetToOrigin w) = origin w.
Proof. reflexivity. Qed.

Lemma colour_ResetToOrigin : colour (ResetToOrigin w) = colour w.
Proof. reflexivity. Qed.

Lemma origin_ResetToOrigin : origin (ResetToOrigin w) = origin w.
Proof. reflexivity. Qed.

Lemma defaultColour_ResetToOrigin : defaultColour (ResetToOrigin w) = defaultColour w.
Proof. reflexivity. Qed.

Lemma img_ResetColour : img (ResetColour w) = img w.
Proof. reflexivity. Qed.

Lemma Dot_ResetColour : Dot (ResetColour w) = Dot w.
Proof. reflexivity. Qed.

Lemma colour_ResetColour : colour (ResetColour w) = defaultColour w.
Proof. reflexivity. Qed.

Lemma origin_ResetColour : origin (ResetColour w) = origin w.
Proof. reflexivity. Qed.

Lemma defaultColour_ResetColour : defaultColour (ResetColour w) = defaultColour w.
Proof. reflexivity. Qed.

Lemma img_SetColour (r g b : Z) : img (SetColour w r g b) = img w.
Proof. reflexivity. Qed.

Lemma Dot_SetColour (r g b : Z) : Dot (SetColour w r g b) = Dot w.
Proof. reflexivity. Qed.

Lemma colour_SetColour (r g b : Z) : colour (SetColour w r g b) = RGB r g b.
Proof. reflexivity. Qed.

Lemma origin_SetColour (r g b : Z) : origin (SetColour w r g b) = origin w.
Proof. reflexivity. Qed.

Lemma defaultColour_SetColour (r g b : Z) :
  defaultColour (SetColour w r g b) = defaultColour w.
Proof. reflexivity. Qed.

Lemma img_Dot_X_sub (d : Z) : img (Dot_X_sub w d) = img w.
Proof. reflexivity. Qed.

Lemma Dot_Dot_X_sub (d : Z) :
  Dot (Dot_X_sub w d) = mkPoint (int32 (X (Dot w) - d)) (Y (Dot w)).
Proof. reflexivity. Qed.

Lemma colour_Dot_X_sub (d : Z) : colour (Dot_X_sub w d) = colour w.
Proof. reflexivity. Qed.

Lemma origin_Dot_X_sub (d : Z) : origin (Dot_X_sub w d) = origin w.
Proof. reflexivity. Qed.

Lemma defaultColour_Dot_X_sub (d : Z) :
  defaultColour (Dot_X_sub w d) = defaultColour w.
Proof. reflexivity. Qed.

End WidgetFields.

Create Rewrite HintDb widget.

#[export] Hint Rewrite
  img_DrawString colour_DrawString origin_DrawString defaultColour_DrawString
  img_ResetToOrigin Dot_ResetToOrigin colour_ResetToOrigin origin_ResetToOrigin
  defaultColour_ResetToOrigin
  img_ResetColour Dot_ResetColour colour_ResetColour origin_ResetColour
  defaultColour_ResetColour
  img_SetColour Dot_SetColour colour_SetColour origin_SetColour defaultColour_SetColour
  img_Dot_X_sub Dot_Dot_X_sub colour_Dot_X_sub origin_Dot_X_sub defaultColour_Dot_X_sub
  : widget.

Ltac widget_fields :=
  cbv zeta; cbn [fst snd]; autorewrite with widget;
  cbn [X Y]; rewrite <- ?app_assoc; cbn [app].

(** ** The exposure bias widget *)

Section ExposureBias.

Variable Width : Z.

(** Off zero and on the ruler: the icon, the ruler in the default colour
    and the marker in yellow. *)
Lemma draw_bias_off_zero (w : Widget) (val pos : Z) (fIsZero : bool) :
  markerPosition val = (pos, false, fIsZero) ->
  0 <= pos <= 18 ->
  exists ruler marker : list ascii,
    (if fIsZero then set_index getBias pos rune_quote else Some getBias) = Some ruler
    /\ set_index (runes "                   ") pos rune_bang = Some marker
    /\ fst (drawFujiExposureBiasCompensation Width w val) = Returned
    /\ img (snd (drawFujiExposureBiasCompensation Width w val))
       = img w ++ [ bias_icon Width w;
                    mkDrawOp (origin w) (defaultColour w) ruler;
                    mkDrawOp (origin w) yellow marker ].
Proof.
  intros MP B.
  assert (exists ruler,
             (if fIsZero then set_index getBias pos rune_quote else Some getBias)
             = Some ruler) as [ruler R].
  { destruct fIsZero; [|eauto].
    rewrite set_index_Some; [eauto | cbn; lia]. }
  assert (exists marker,
             set_index (runes "                   ") pos rune_bang = Some marker)
    as [marker Mk].
  { rewrite set_index_Some; [eauto | cbn; lia]. }
  exists ruler, marker. split; [exact R|]. split; [exact Mk|].
  unfold drawFujiExposureBiasCompensation. rewrite MP, R, Mk.
  split; [reflexivity|].
  widget_fields. reflexivity.
Qed.

(** Off the ruler: the draw panics at the first assignment to index [pos],
    and no marker is drawn. *)
Lemma draw_bias_off_ruler (w : Widget) (val pos : Z) (onZero fIsZero : bool) :
  markerPosition val = (pos, onZero, fIsZero) ->
  pos < 0 \/ 18 < pos ->
  fst (drawFujiExposureBiasCompensation Width w val) = Panicked
  /\ img (snd (drawFujiExposureBiasCompensation Width w val))
     = img w
       ++ bias_icon Width w
       :: (if fIsZero then []
           else [mkDrawOp (origin w) (if onZero then grey else defaultColour w) getBias]).
Proof.
  intros MP B.
  assert (forall (s : list ascii) r, List.length s = 19%nat -> set_index s pos r = None) as N.
  { intros s r L. apply set_index_None. rewrite L. lia. }
  unfold drawFujiExposureBiasCompensation. rewrite MP.
  destruct fIsZero.
  - rewrite N by reflexivity. split; [reflexivity|]. widget_fields. reflexivity.
  - destruct onZero.
    + cbn [drawMarkers]. rewrite N by reflexivity.
      split; [reflexivity|]. widget_fields. reflexivity.
    + rewrite N by reflexivity.
      split; [reflexivity|]. widget_fields. reflexivity.
Qed.

(** The draw returns exactly when the position is on the ruler. *)
Lemma draw_bias_returns_iff (w : Widget) (val pos : Z) (onZero fIsZero : bool) :
  markerPosition val = (pos, onZero, fIsZero) ->
  fst (drawFujiExposureBiasCompensation Width w val) = Returned <-> 0 <= pos <= 18.
Proof.
  intro MP. split.
  - intro Ret. destruct (Z_lt_ge_dec pos 0) as [L|L];
      [|destruct (Z_lt_ge_dec 18 pos) as [G|G]; [|lia]].
    + destruct (draw_bias_off_ruler w val pos onZero fIsZero MP (or_introl L)) as [P _].
      rewrite Ret in P. discriminate.
    + destruct (draw_bias_off_ruler w val pos onZero fIsZero MP (or_intror G)) as [P _].
      rewrite Ret in P. discriminate.
  - intro B. unfold drawFujiExposureBiasCompensation. rewrite MP.
    assert (forall (s : list ascii) r, List.length s = 19%nat ->
              exists s', set_index s pos r = Some s' /\ List.length s' = 19%nat) as S.
    { intros s r L. rewrite set_index_Some by (rewrite L; lia).
      eexists. split; [reflexivity|].
      rewrite length_app. cbn [List.length]. rewrite length_firstn, length_skipn. lia. }
    assert (exists ruler,
               (if fIsZero then set_index getBias pos rune_quote else Some getBias)
               = Some ruler) as [ruler ->].
    { destruct fIsZero; [|eauto].
      destruct (S getBias rune_quote eq_refl) as (s' & -> & _). eauto. }
    destruct onZero.
    + cbn [drawMarkers].
      destruct (S (runes "                   ") rune_quote eq_refl) as (m1 & -> & L1).
      destruct (S m1 rune_bang L1) as (m2 & -> & _).
      reflexivity.
    + destruct (S (runes "                   ") rune_bang eq_refl) as (m & -> & _).
      reflexivity.
Qed.

End ExposureBias.

(** ** The exposure bias widget: the claims *)




(** C6: for the value 0 the marker position is 9; after the icon, the whole
    ruler is drawn in grey [(100, 100, 100)], and then the placeholder of
    the zero glyph and the marker, both at index 9, are drawn in white
    [(255, 255, 255)] from the same origin. *)
Theorem drawFujiExposureBiasCompensation_on_zero :
  forall (Width : Z) (w : Widget),
    markerPosition 0 = (9, true, true)
    /\ fst (drawFujiExposureBiasCompensation Width w 0) = Returned
    /\ img (snd (drawFujiExposureBiasCompensation Width w 0))
       = img w ++ [ bias_icon Width w;
                    mkDrawOp (origin w) (RGB 100 100 100) ruler_on_zero;
                    mkDrawOp (origin w) (RGB 255 255 255) marker_placeholder_on_zero;
                    mkDrawOp (origin w) (RGB 255 255 255) marker_on_zero ]
    /\ nth_error ruler_on_zero 9 = Some rune_quote
    /\ nth_error marker_placeholder_on_zero 9 = Some rune_quote
    /\ nth_error marker_on_zero 9 = Some rune_bang
    /\ List.length ruler_on_zero = 19%nat.
Proof.
  intros Width w.
  assert (markerPosition 0 = (9, true, true)) as M0 by (vm_compute; reflexivity).
  assert (set_index getBias 9 rune_quote = Some ruler_on_zero) as R by reflexivity.
  assert (set_index (runes "                   ") 9 rune_quote
          = Some marker_placeholder_on_zero) as K1 by reflexivity.
  assert (set_index marker_placeholder_on_zero 9 rune_bang = Some marker_on_zero)
    as K2 by reflexivity.
  split; [exact M0|].
  unfold drawFujiExposureBiasCompensation. rewrite M0, R.
  cbn [drawMarkers]. rewrite K1, K2.
  split; [reflexivity|]. split; [widget_fields; reflexivity|].
  repeat split.
Qed.

(** C7 (amended): for every value [val] whose [int16] value [x] is a
    multiple of 1000 the computed position is [9 + 3 * (x / 1000)], with no
    third-stop offset. The draw returns exactly when that position is on the
    19-rune ruler, which is when [-3000 <= x <= 3000]: off zero it then
    writes the yellow marker at that index, index 18 for 3000 and index 0
    for -3000. Beyond three stops the position is off the ruler and the draw
    panics right after the icon. *)
Theorem drawFujiExposureBiasCompensation_whole_stops :
  forall (Width : Z) (w : Widget) (val : Z),
    int16 val mod 1000 = 0 ->
    let x := int16 val in
    let pos := 9 + 3 * (x / 1000) in
    markerPosition val = (pos, x =? 0, true)
    /\ (fst (drawFujiExposureBiasCompensation Width w val) = Returned
        <-> - 3000 <= x <= 3000)
    /\ (x <> 0 -> - 3000 <= x <= 3000 ->
        exists ruler marker : list ascii,
          set_index getBias pos rune_quote = Some ruler
          /\ set_index (runes "                   ") pos rune_bang = Some marker
          /\ nth_error marker (Z.to_nat pos) = Some rune_bang
          /\ img (snd (drawFujiExposureBiasCompensation Width w val))
             = img w ++ [ bias_icon Width w;
                          mkDrawOp (origin w) (defaultColour w) ruler;
                          mkDrawOp (origin w) (RGB 255 185 10) marker ])
    /\ (x = 3000 -> pos = 18)
    /\ (x = - 3000 -> pos = 0)
    /\ (3000 < Z.abs x ->
        (pos < 0 \/ 18 < pos)
        /\ fst (drawFujiExposureBiasCompensation Width w val) = Panicked
        /\ img (snd (drawFujiExposureBiasCompensation Width w val))
           = img w ++ [bias_icon Width w]).
Proof.
  intros Width w val D x pos.
  pose proof (markerPosition_whole_stops val D) as MP.
  fold x in MP. fold pos in MP.
  assert (x = 1000 * (x / 1000)) as K.
  { apply Z.div_exact; [lia | exact D]. }
  split; [exact MP|]. split; [|split; [|split; [|split]]].
  - rewrite (draw_bias_returns_iff Width w val pos _ _ MP). unfold pos. lia.
  - intros NZ B.
    assert ((x =? 0) = false) as Z0 by now apply Z.eqb_neq.
    rewrite Z0 in MP.
    destruct (draw_bias_off_zero Width w val pos true MP ltac:(unfold pos; lia))
      as (ruler & marker & R & Mk & _ & Img).
    exists ruler, marker.
    split; [exact R|]. split; [exact Mk|].
    split; [exact (set_index_nth _ _ _ _ Mk) | exact Img].
  - intro E. unfold pos. rewrite E. reflexivity.
  - intro E. unfold pos. rewrite E. reflexivity.
  - intro Far.
    assert (pos < 0 \/ 18 < pos) as Off by (unfold pos; lia).
    split; [exact Off|].
    exact (draw_bias_off_ruler Width w val pos _ true MP Off).
Qed.

Lemma drawFujiExposureBiasCompensation_whole_stops_witness :
  int16 3000 mod 1000 = 0
  /\ markerPosition 3000 = (18, false, true)
  /\ (fst (drawFujiExposureBiasCompensation 6 example_bias_widget 3000) = Returned
      <-> - 3000 <= int16 3000 <= 3000).
Proof.
  assert (int16 3000 mod 1000 = 0) as D by reflexivity.
  pose proof (drawFujiExposureBiasCompensation_whole_stops
                6 example_bias_widget 3000 D) as T.
  cbv zeta in T.
  split; [exact D|].
  split; [exact (proj1 T) | exact (proj1 (proj2 T))].
Defined.

(** C7 as stated fails: 4000 is a multiple of 1000 with [|v| >= 3000]; the
    position computed is 21, which is not an index of the 19-rune ruler;
    the draw panics right after the icon, and no marker is written. *)
Lemma drawFujiExposureBiasCompensation_whole_stops_counterexample :
  3000 <= Z.abs 4000
  /\ 4000 mod 1000 = 0
  /\ markerPosition 4000 = (21, false, true)
  /\ List.length getBias = 19%nat
  /\ fst (drawFujiExposureBiasCompensation 6 example_bias_widget 4000) = Panicked
  /\ img (snd (drawFujiExposureBiasCompensation 6 example_bias_widget 4000))
     = [bias_icon 6 example_bias_widget].
Proof.
  split; [vm_compute; discriminate|]. split; [reflexivity|].
  split; [vm_compute; reflexivity|]. split; [reflexivity|].
  split; vm_compute; reflexivity.
Qed.

(** ** The battery widget *)

(** C8, at the input where the code leaves the claim: on a fresh battery
    widget, whose default colour is white, a draw of level One followed by a
    draw of level Two draws both strings in red: [drawFujiBattery3Bars] sets
    the colour for level One and never resets it. *)
Theorem drawFujiBattery3Bars_red_persists :
  forall (Width : Z) (FujiBatteryLevel : Z -> Z)
         (BAT_Fuji_3bOne BAT_Fuji_3bTwo BAT_Fuji_3bFull : Z)
         (image : list DrawOp) (maxX maxY : Z) (v1 v2 : Z),
    FujiBatteryLevel v1 = BAT_Fuji_3bOne ->
    FujiBatteryLevel v2 = BAT_Fuji_3bTwo ->
    BAT_Fuji_3bTwo <> BAT_Fuji_3bOne ->
    let draw := drawFujiBattery3Bars Width FujiBatteryLevel
                  BAT_Fuji_3bOne BAT_Fuji_3bTwo BAT_Fuji_3bFull in
    let w := NewFujiBatteryLevelWidget image maxX maxY in
    let w1 := snd (draw w v1) in
    let w2 := snd (draw w1 v2) in
    defaultColour w = RGB 255 255 255
    /\ img w1 = image ++ [mkDrawOp (origin w) (RGB 255 0 0) (runes "baU")]
    /\ colour w1 = RGB 255 0 0
    /\ img w2 = image ++ [ mkDrawOp (origin w) (RGB 255 0 0) (runes "baU");
                           mkDrawOp (origin w) (RGB 255 0 0) (runes "bCT") ]
    /\ defaultColour w2 = RGB 255 255 255.
Proof.
  intros Width L One Two Full image maxX maxY v1 v2 E1 E2 NE draw w w1 w2.
  subst w2 w1 draw. unfold drawFujiBattery3Bars.
  rewrite E1, E2, Z.eqb_refl.
  apply Z.eqb_neq in NE. rewrite NE, Z.eqb_refl.
  subst w. unfold NewFujiBatteryLevelWidget.
  set (x := int_of_float _). set (y := maxY - 8).
  widget_fields. repeat split.
Qed.

Lemma drawFujiBattery3Bars_red_persists_witness :
  let draw := drawFujiBattery3Bars 6 (fun v => uint16 v) 1 2 3 in
  let w := NewFujiBatteryLevelWidget [] 640 480 in
  defaultColour w = RGB 255 255 255
  /\ img (snd (draw w 1)) = [] ++ [mkDrawOp (origin w) (RGB 255 0 0) (runes "baU")]
  /\ colour (snd (draw w 1)) = RGB 255 0 0
  /\ img (snd (draw (snd (draw w 1)) 2))
     = [] ++ [ mkDrawOp (origin w) (RGB 255 0 0) (runes "baU");
               mkDrawOp (origin w) (RGB 255 0 0) (runes "bCT") ]
  /\ defaultColour (snd (draw (snd (draw w 1)) 2)) = RGB 255 255 255.
Proof.
  apply (drawFujiBattery3Bars_red_persists 6 (fun v => uint16 v) 1 2 3 [] 640 480 1 2).
  - reflexivity.
  - reflexivity.
  - discriminate.
Defined.

(** On a widget that still has its default colour the levels draw as the
    spec words them: One in red, Two and Full in the default colour. *)
Lemma drawFujiBattery3Bars_from_default_colour
      (Width : Z) (L : Z -> Z) (One Two Full : Z) (w : Widget) (val : Z) :
  colour w = defaultColour w ->
  One <> Two -> One <> Full ->
  (L val = One ->
   img (snd (drawFujiBattery3Bars Width L One Two Full w val))
   = img w ++ [mkDrawOp (origin w) (RGB 255 0 0) (runes "baU")])
  /\ (L val = Two ->
      img (snd (drawFujiBattery3Bars Width L One Two Full w val))
      = img w ++ [mkDrawOp (origin w) (defaultColour w) (runes "bCT")])
  /\ (L val = Full -> Two <> Full ->
      img (snd (drawFujiBattery3Bars Width L One Two Full w val))
      = img w ++ [mkDrawOp (origin w) (defaultColour w) (runes "BAT")]).
Proof.
  intros Def N12 N13. unfold drawFujiBattery3Bars.
  split; [|split].
  - intros ->. rewrite Z.eqb_refl. widget_fields. reflexivity.
  - intros ->. apply not_eq_sym, Z.eqb_neq in N12. rewrite N12, Z.eqb_refl.
    widget_fields. now rewrite Def.
  - intros -> N23.
    apply not_eq_sym, Z.eqb_neq in N13. apply not_eq_sym, Z.eqb_neq in N23.
    rewrite N13, N23, Z.eqb_refl.
    widget_fields. now rewrite Def.
Qed.

(** ** The exit codes of [main] *)

(** C9: [main] exits with 1 when [os.Args] holds the program name only;
    with arguments present it exits with 0 on the help path ([help] is true
    when [main] tests it, before [initFlags]) and on the version path, with
    4 when [ip.NewClient] returns an error, with 5 when [Dial] returns an
    error, and with 0 when both succeed, whether or not the server is
    launched. No other exit code is used. *)
Theorem main_exit_codes :
  forall (initFlags : list string -> Flags -> Flags)
         (NewClient_err Dial_err : option error)
         (exe : string) (flags : Flags),
    fst (main initFlags NewClient_err Dial_err [exe] flags) = os_Exit 1
    /\ (forall (arg : string) (rest : list string),
          let os_Args := exe :: arg :: rest in
          let parsed := initFlags os_Args flags in
          let exit := fst (main initFlags NewClient_err Dial_err os_Args flags) in
          (help flags = true -> exit = os_Exit 0)
          /\ (help flags = false -> version parsed = true -> exit = os_Exit 0)
          /\ (help flags = false -> version parsed = false ->
              forall err, NewClient_err = Some err -> exit = os_Exit 4)
          /\ (help flags = false -> version parsed = false ->
              NewClient_err = None ->
              forall err, Dial_err = Some err -> exit = os_Exit 5)
          /\ (help flags = false -> version parsed = false ->
              NewClient_err = None -> Dial_err = None -> exit = os_Exit 0))
    /\ (forall rest : list string,
          In (fst (main initFlags NewClient_err Dial_err (exe :: rest) flags))
             [os_Exit 0; os_Exit 1; os_Exit 4; os_Exit 5]).
Proof.
  intros initFlags nce de exe flags. split; [reflexivity|]. split.
  - intros arg rest os_Args parsed exit. subst exit. unfold main.
    fold os_Args. fold parsed.
    assert ((Z.of_nat (List.length os_Args) <? 2) = false) as Two.
    { apply Z.ltb_ge. subst os_Args. cbn [List.length]. lia. }
    subst os_Args. rewrite Two. cbn [orb].
    repeat split.
    + intros ->. reflexivity.
    + intros -> ->. reflexivity.
    + intros -> -> err ->. reflexivity.
    + intros -> -> -> err ->. reflexivity.
    + intros -> -> -> ->. reflexivity.
  - intro rest. unfold main.
    destruct (Z.of_nat (List.length (exe :: rest)) <? 2); cbn [orb fst].
    + right. left. reflexivity.
    + destruct (help flags); cbn [fst]; [left; reflexivity|].
      destruct (version _); cbn [fst]; [left; reflexivity|].
      destruct nce; cbn [fst]; [right; right; left; reflexivity|].
      destruct de; cbn [fst]; [right; right; right; left; reflexivity|].
      left. reflexivity.
Qed.

(** The calls behind two of the exit codes: a failed [Dial] after the flags
    were parsed and no configuration file was named, and the help path. *)
Example main_dial_failure :
  main (fun _ f => f) None (Some (errors_New "connection refused"))
       ["ptpip"%string; "-t"%string]
       (mkFlags false false "" false)
  = (os_Exit 5,
     [call_initFlags; call_NewClient; call_Dial;
      call_print_error (errors_New "connection refused")]).
Proof. reflexivity. Qed.

Example main_no_arguments :
  main (fun _ f => f) None None ["ptpip"%string] (mkFlags false false "" false)
  = (os_Exit 1, [call_usage]).
Proof. reflexivity. Qed.

(** * More of the handshake *)

Lemma count_app (f : Event -> bool) (a b : list Event) :
  count f (a ++ b) = (count f a + count f b)%nat.
Proof.
  unfold count. now rewrite filter_app, length_app.
Qed.

Lemma tid_after_app (t : Z) (a b : list Event) :
  tid_after t (a ++ b) = tid_after (tid_after t a) b.
Proof.
  revert t. induction a as [|ev a IH]; intro t; [reflexivity|].
  destruct ev; cbn [app tid_after]; apply IH.
Qed.

Lemma tids_follow_app (t : Z) (a b : list Event) :
  tids_follow t (a ++ b) <-> tids_follow t a /\ tids_follow (tid_after t a) b.
Proof.
  revert t. induction a as [|ev a IH]; intro t; cbn [app tids_follow tid_after].
  - tauto.
  - destruct ev; cbn [tids_follow tid_after]; rewrite IH; tauto.
Qed.

Lemma tid_after_incremented (t : Z) (evs : list Event) :
  tid_after t evs = incremented (count is_increment evs) t.
Proof.
  revert t. induction evs as [|ev evs IH]; intro t; [reflexivity|].
  destruct ev; cbn [tid_after]; rewrite IH; unfold count; cbn [filter is_increment];
    try reflexivity.
  cbn [List.length]. unfold incremented.
  rewrite Nat.iter_succ_r. reflexivity.
Qed.

Section HandshakeShape.

Context `{PtpConstants} {Net : Type} `{Transport Net}.

Lemma run_shape_ret {A : Type} (a : A) : run_shape (ret (Net := Net) a) 0 0 0.
Proof.
  intro c. exists []. cbn. rewrite app_nil_r. repeat split; auto.
Qed.

Lemma run_shape_TransactionId : run_shape (TransactionId (Net := Net)) 0 0 0.
Proof.
  intro c. exists []. cbn. rewrite app_nil_r. repeat split; auto.
Qed.

Lemma run_shape_incrementTransactionId :
  run_shape (incrementTransactionId (Net := Net)) 0 0 1.
Proof.
  intro c. exists [EvIncrement]. cbn. repeat split; auto.
Qed.

(** A write of a packet that carries the identifier just read. *)
Lemma run_shape_send {B : Type} (pkt : Z -> FujiOperationRequestPacket.t)
      (k : M Net B) (s r i : nat) :
  (forall t, FujiOperationRequestPacket.TransactionID (pkt t) = t) ->
  run_shape k s r i ->
  run_shape
    (bind TransactionId
       (fun tid => bind (SendPacketToCmdDataConn (pkt tid)) (fun _ => k)))
    (S s) r i.
Proof.
  intros Tid Hk c. unfold bind, TransactionId, SendPacketToCmdDataConn.
  destruct (conn_send (conn c) _) as [[e|] n]; cbn [fst snd].
  - eexists. split; [reflexivity|]. cbn.
    repeat split; auto; try lia; discriminate.
  - set (c1 := mkClient _ _ _).
    destruct (Hk c1) as (evs & E & F & T & (Ls & Lr & Li) & Eq).
    exists (EvSend (pkt (transactionId c)) None :: evs).
    rewrite E. subst c1. cbn [events transactionId] in *. rewrite <- app_assoc.
    split; [reflexivity|]. split; [split; [apply Tid | exact F]|].
    split; [exact T|].
    change (EvSend (pkt (transactionId c)) None :: evs)
      with ([EvSend (pkt (transactionId c)) None] ++ evs).
    rewrite !count_app. cbn. split; [lia|].
    intros b Ob. destruct (Eq b Ob) as (Es & Er & Ei). lia.
Qed.

Lemma run_shape_bind {A B : Type} (m : M Net A) (k : A -> M Net B)
      (s1 r1 i1 s2 r2 i2 s r i : nat) :
  run_shape m s1 r1 i1 ->
  (forall a, run_shape (k a) s2 r2 i2) ->
  s = (s1 + s2)%nat -> r = (r1 + r2)%nat -> i = (i1 + i2)%nat ->
  run_shape (bind m k) s r i.
Proof.
  intros Hm Hk -> -> -> c.
  destruct (Hm c) as (evs1 & E1 & F1 & T1 & (Ls & Lr & Li) & Eq1).
  unfold bind. destruct (m c) as [[a|e] c1]; cbn [fst snd] in *.
  - destruct (Hk a c1) as (evs2 & E2 & F2 & T2 & (Ls2 & Lr2 & Li2) & Eq2).
    destruct (Eq1 a eq_refl) as (Es & Er & Ei).
    exists (evs1 ++ evs2). rewrite E2, E1, app_assoc.
    split; [reflexivity|].
    split; [apply tids_follow_app; rewrite <- T1; auto|].
    split; [rewrite T2, T1; symmetry; apply tid_after_app|].
    rewrite !count_app. split; [lia|].
    intros b Ob. destruct (Eq2 b Ob) as (Es2 & Er2 & Ei2). lia.
  - exists evs1. split; [exact E1|]. split; [exact F1|]. split; [exact T1|].
    split; [lia|]. intros b Ob. discriminate.
Qed.

Lemma run_shape_wait_check {B : Type}
      (k : FujiOperationResponsePacket.t -> M Net B) (s r i : nat) :
  (forall p, run_shape (k p) s r i) ->
  run_shape
    (bind WaitForPacketFromCmdDataConn
       (fun p => if negb (FujiOperationResponsePacket.WasSuccessfull p)
                 then raise (FujiOperationResponsePacket.ReasonAsError p)
                 else k p)) s (S r) i.
Proof.
  intros Hk c. unfold bind, WaitForPacketFromCmdDataConn.
  destruct (conn_recv (conn c)) as [[e|p] n]; cbn [fst snd].
  - exists [EvWait (inl e)]. cbn. repeat split; auto; try lia; discriminate.
  - destruct (FujiOperationResponsePacket.WasSuccessfull p); cbn [negb].
    + set (c1 := mkClient _ _ _).
      destruct (Hk p c1) as (evs & E & F & T & (Ls & Lr & Li) & Eq).
      exists (EvWait (inr (RespPlain p)) :: evs).
      rewrite E. subst c1. cbn [events transactionId] in *. rewrite <- app_assoc.
      split; [reflexivity|]. split; [exact F|]. split; [exact T|].
      change (EvWait (inr (RespPlain p)) :: evs)
        with ([EvWait (inr (RespPlain p))] ++ evs).
      rewrite !count_app. cbn. split; [lia|].
      intros b Ob. destruct (Eq b Ob) as (Es & Er & Ei). lia.
    + exists [EvWait (inr (RespPlain p))]. cbn.
      repeat split; auto; try lia; discriminate.
Qed.

Lemma run_shape_wait_check_one {B : Type}
      (k : FujiOperationResponsePacketOne.t -> M Net B) (s r i : nat) :
  (forall po, run_shape (k po) s r i) ->
  run_shape
    (bind WaitForPacketOneFromCmdDataConn
       (fun po => if negb (FujiOperationResponsePacketOne.WasSuccessfull po)
                  then raise (FujiOperationResponsePacketOne.ReasonAsError po)
                  else k po)) s (S r) i.
Proof.
  intros Hk c. unfold bind, WaitForPacketOneFromCmdDataConn.
  destruct (conn_recv_one (conn c)) as [[e|po] n]; cbn [fst snd].
  - exists [EvWait (inl e)]. cbn. repeat split; auto; try lia; discriminate.
  - destruct (FujiOperationResponsePacketOne.WasSuccessfull po); cbn [negb].
    + set (c1 := mkClient _ _ _).
      destruct (Hk po c1) as (evs & E & F & T & (Ls & Lr & Li) & Eq).
      exists (EvWait (inr (RespOne po)) :: evs).
      rewrite E. subst c1. cbn [events transactionId] in *. rewrite <- app_assoc.
      split; [reflexivity|]. split; [exact F|]. split; [exact T|].
      change (EvWait (inr (RespOne po)) :: evs)
        with ([EvWait (inr (RespOne po))] ++ evs).
      rewrite !count_app. cbn. split; [lia|].
      intros b Ob. destruct (Eq b Ob) as (Es & Er & Ei). lia.
    + exists [EvWait (inr (RespOne po))]. cbn.
      repeat split; auto; try lia; discriminate.
Qed.

Ltac shape_step :=
  first
    [ apply run_shape_wait_check; intro
    | apply run_shape_wait_check_one; intro
    | apply run_shape_incrementTransactionId
    | apply run_shape_ret
    | apply run_shape_send; [intro; reflexivity|]
    | eapply run_shape_bind;
      [ apply run_shape_incrementTransactionId | intro | | | ] ].

Lemma run_shape_stepOpenSession : run_shape (stepOpenSession (Net := Net)) 1 1 1.
Proof.
  unfold stepOpenSession. repeat shape_step.
Qed.

Lemma run_shape_stepDeclareInitSequence :
  run_shape (stepDeclareInitSequence (Net := Net)) 2 1 1.
Proof.
  unfold stepDeclareInitSequence. repeat shape_step.
Qed.

Lemma run_shape_stepNegotiateAppVersion :
  run_shape (stepNegotiateAppVersion (Net := Net)) 3 3 2.
Proof.
  unfold stepNegotiateAppVersion.
  do 3 shape_step.
  apply (run_shape_bind _ _ 0 0 1 2 1 1);
    [apply run_shape_incrementTransactionId | intro | reflexivity ..].
  repeat shape_step.
Qed.

Lemma run_shape_stepInitiateOpenCapture :
  run_shape (stepInitiateOpenCapture (Net := Net)) 1 1 0.
Proof.
  unfold stepInitiateOpenCapture. repeat shape_step.
Qed.

Lemma run_shape_FujiInitSequence : run_shape (FujiInitSequence (Net := Net)) 7 6 4.
Proof.
  unfold FujiInitSequence.
  apply (run_shape_bind _ _ 1 1 1 6 5 3);
    [apply run_shape_stepOpenSession | intros _ | reflexivity ..].
  apply (run_shape_bind _ _ 2 1 1 4 4 2);
    [apply run_shape_stepDeclareInitSequence | intros _ | reflexivity ..].
  apply (run_shape_bind _ _ 3 3 2 1 1 0);
    [apply run_shape_stepNegotiateAppVersion | intros _ | reflexivity ..].
  apply run_shape_stepInitiateOpenCapture.
Qed.

End HandshakeShape.

(** X1: [FujiInitSequence] returns an error exactly when the last call it
    made failed. A failed write and a failed read end the run at once, and
    the error of the connection is returned unchanged; when the function
    returns an error, that error comes from the last event of the run and no
    earlier event failed; when it returns without one, no event failed. *)
Theorem FujiInitSequence_returns_the_error_of_the_last_call :
  forall `{PtpConstants} (Net : Type) `{Transport Net} (c : Client Net),
  exists evs : list Event,
    events (snd (FujiInitSequence c)) = events c ++ evs
    /\ (forall pre pkt e post,
          evs = pre ++ EvSend pkt (Some e) :: post ->
          post = [] /\ fst (FujiInitSequence c) = Err e)
    /\ (forall pre e post,
          evs = pre ++ EvWait (inl e) :: post ->
          post = [] /\ fst (FujiInitSequence c) = Err e)
    /\ (forall e,
          fst (FujiInitSequence c) = Err e ->
          exists pre ev,
            evs = pre ++ [ev]
            /\ stops ev = Some e
            /\ Forall (fun ev => stops ev = None) pre)
    /\ (fst (FujiInitSequence c) = Ok tt ->
        Forall (fun ev => stops ev = None) evs).
Proof.
  intros C Net T c.
  destruct (run_spec_FujiInitSequence c) as (evs & E & _ & R).
  assert (match fst (FujiInitSequence c) with
          | Ok _ => Forall (fun ev => stops ev = None) evs
          | Err e' =>
              exists pre' ev',
                evs = pre' ++ [ev']
                /\ Forall (fun ev => stops ev = None) pre'
                /\ stops ev' = Some e'
          end) as R'.
  { destruct (fst (FujiInitSequence c)); [apply R | exact R]. }
  exists evs. split; [exact E|].
  split; [|split; [|split]].
  - intros pre pkt e post Eevs.
    exact (stopping_event_is_last _ _ _ _ _ e R' Eevs eq_refl).
  - intros pre e post Eevs.
    exact (stopping_event_is_last _ _ _ _ _ e R' Eevs eq_refl).
  - intros e Er. rewrite Er in R.
    destruct R as (pre & ev & Eevs & Q & S).
    exists pre, ev. auto.
  - intro Ok. rewrite Ok in R. apply R.
Qed.

(** X2: in every run of [FujiInitSequence], failed or not, each packet sent
    carries the transaction identifier the client has at that moment, which
    is the identifier at the call after the increments made so far; and the
    identifier at the return is the identifier at the call after all the
    increments of the run. *)
Theorem FujiInitSequence_packets_carry_the_current_TransactionID :
  forall `{PtpConstants} (Net : Type) `{Transport Net} (c : Client Net),
  exists evs : list Event,
    events (snd (FujiInitSequence c)) = events c ++ evs
    /\ (forall pre pkt err post,
          evs = pre ++ EvSend pkt err :: post ->
          FujiOperationRequestPacket.TransactionID pkt
          = incremented (count is_increment pre) (transactionId c))
    /\ transactionId (snd (FujiInitSequence c))
       = incremented (count is_increment evs) (transactionId c).
Proof.
  intros C Net T c.
  destruct (run_shape_FujiInitSequence c) as (evs & E & F & Tid & _).
  exists evs. split; [exact E|]. split.
  - intros pre pkt err post ->.
    apply tids_follow_app in F. destruct F as [_ F].
    cbn [tids_follow] in F. destruct F as [F _].
    rewrite F. apply tid_after_incremented.
  - rewrite Tid. apply tid_after_incremented.
Qed.

(** X3: no run of [FujiInitSequence] writes more than 7 packets, reads more
    than 6 responses or increments the transaction identifier more than 4
    times; a run that returns without an error does exactly that many. *)
Theorem FujiInitSequence_io_bounds :
  forall `{PtpConstants} (Net : Type) `{Transport Net} (c : Client Net),
  exists evs : list Event,
    events (snd (FujiInitSequence c)) = events c ++ evs
    /\ (count is_send evs <= 7)%nat
    /\ (count is_wait evs <= 6)%nat
    /\ (count is_increment evs <= 4)%nat
    /\ (fst (FujiInitSequence c) = Ok tt ->
        count is_send evs = 7%nat
        /\ count is_wait evs = 6%nat
        /\ count is_increment evs = 4%nat).
Proof.
  intros C Net T c.
  destruct (run_shape_FujiInitSequence c) as (evs & E & _ & _ & (Ls & Lr & Li) & Eq).
  exists evs. repeat (split; [assumption|]). apply Eq.
Qed.

(** ** The fields of a response that the handshake does not read *)

Section Forgetful.

Context `{PtpConstants} {Net : Type} (T : Transport Net).

Lemma same_run_ret {A : Type} (a : A) :
  same_run (ret (Net := Net) a) (ret a).
Proof. intro c. reflexivity. Qed.

Lemma same_run_TransactionId :
  same_run (TransactionId (Net := Net)) TransactionId.
Proof. intro c. reflexivity. Qed.

Lemma same_run_incrementTransactionId :
  same_run (incrementTransactionId (Net := Net)) incrementTransactionId.
Proof.
  intro c. unfold incrementTransactionId, forget_client. cbn.
  now rewrite map_app.
Qed.

Lemma same_run_SendPacketToCmdDataConn (pkt : FujiOperationRequestPacket.t) :
  same_run (@SendPacketToCmdDataConn Net T pkt)
           (@SendPacketToCmdDataConn Net (forgetful T) pkt).
Proof.
  intro c. unfold SendPacketToCmdDataConn, forget_client. cbn.
  destruct (conn_send (conn c) pkt) as [[e|] n]; cbn; now rewrite map_app.
Qed.

Lemma same_run_bind {A B : Type} (m m' : M Net A) (k k' : A -> M Net B) :
  same_run m m' ->
  (forall a, same_run (k a) (k' a)) ->
  same_run (bind m k) (bind m' k').
Proof.
  intros Hm Hk c. unfold bind. rewrite (Hm c).
  destruct (m c) as [[a|e] c1]; cbn [fst snd].
  - apply Hk.
  - reflexivity.
Qed.

Lemma same_run_wait_check {B : Type}
      (k k' : FujiOperationResponsePacket.t -> M Net B) :
  (forall p, same_run (k p) (k' (forget_plain p))) ->
  same_run
    (bind (@WaitForPacketFromCmdDataConn Net T)
       (fun p => if negb (FujiOperationResponsePacket.WasSuccessfull p)
                 then raise (FujiOperationResponsePacket.ReasonAsError p)
                 else k p))
    (bind (@WaitForPacketFromCmdDataConn Net (forgetful T))
       (fun p => if negb (FujiOperationResponsePacket.WasSuccessfull p)
                 then raise (FujiOperationResponsePacket.ReasonAsError p)
                 else k' p)).
Proof.
  intros Hk c. unfold bind, WaitForPacketFromCmdDataConn.
  cbn [forget_client conn transactionId events conn_recv forgetful].
  destruct (conn_recv (conn c)) as [[e|p] n]; cbn [fst snd].
  - unfold forget_client. cbn. now rewrite map_app.
  - change (FujiOperationResponsePacket.WasSuccessfull (forget_plain p))
      with (FujiOperationResponsePacket.WasSuccessfull p).
    destruct (FujiOperationResponsePacket.WasSuccessfull p); cbn [negb].
    + rewrite <- Hk. f_equal. unfold forget_client. cbn. now rewrite map_app.
    + unfold raise, forget_client. cbn. now rewrite map_app.
Qed.

Lemma same_run_wait_check_one {B : Type}
      (k k' : FujiOperationResponsePacketOne.t -> M Net B) :
  (forall po, same_run (k po) (k' (forget_one po))) ->
  same_run
    (bind (@WaitForPacketOneFromCmdDataConn Net T)
       (fun po => if negb (FujiOperationResponsePacketOne.WasSuccessfull po)
                  then raise (FujiOperationResponsePacketOne.ReasonAsError po)
                  else k po))
    (bind (@WaitForPacketOneFromCmdDataConn Net (forgetful T))
       (fun po => if negb (FujiOperationResponsePacketOne.WasSuccessfull po)
                  then raise (FujiOperationResponsePacketOne.ReasonAsError po)
                  else k' po)).
Proof.
  intros Hk c. unfold bind, WaitForPacketOneFromCmdDataConn.
  cbn [forget_client conn transactionId events conn_recv_one forgetful].
  destruct (conn_recv_one (conn c)) as [[e|po] n]; cbn [fst snd].
  - unfold forget_client. cbn. now rewrite map_app.
  - change (FujiOperationResponsePacketOne.WasSuccessfull (forget_one po))
      with (FujiOperationResponsePacketOne.WasSuccessfull po).
    destruct (FujiOperationResponsePacketOne.WasSuccessfull po); cbn [negb].
    + rewrite <- Hk. f_equal. unfold forget_client. cbn. now rewrite map_app.
    + unfold raise, forget_client. cbn. now rewrite map_app.
Qed.

Ltac same_step :=
  first
    [ apply same_run_wait_check; intro
    | apply same_run_wait_check_one; intro
    | apply same_run_incrementTransactionId
    | apply same_run_ret
    | apply same_run_bind;
      [ first [ apply same_run_TransactionId
              | apply same_run_SendPacketToCmdDataConn
              | apply same_run_incrementTransactionId ]
      | intro ] ].

Lemma same_run_FujiInitSequence :
  same_run (@FujiInitSequence _ Net T) (@FujiInitSequence _ Net (forgetful T)).
Proof.
  unfold FujiInitSequence.
  apply same_run_bind; [unfold stepOpenSession; repeat same_step | intros _].
  apply same_run_bind; [unfold stepDeclareInitSequence; repeat same_step | intros _].
  apply same_run_bind; [unfold stepNegotiateAppVersion; repeat same_step | intros _].
  unfold stepInitiateOpenCapture; repeat same_step.
Qed.

End Forgetful.

Lemma filter_is_send_forget (evs : list Event) :
  filter is_send (map forget_event evs) = filter is_send evs.
Proof.
  induction evs as [|ev evs IH]; [reflexivity|].
  destruct ev as [pkt err|[e|[p|po]]| |]; cbn; now rewrite ?IH.
Qed.

(** X4: [FujiInitSequence] never reads the data phase or the transaction
    identifier of a response. On a connection that delivers every response
    with these two fields set to zero it returns the same result, leaves the
    same transaction identifier and the same connection state, and writes
    the same packets in the same order. *)
Theorem FujiInitSequence_ignores_response_TransactionID :
  forall `{PtpConstants} (Net : Type) (T : Transport Net) (c : Client Net),
    let run := @FujiInitSequence _ Net T c in
    let run' := @FujiInitSequence _ Net (forgetful T) (forget_client c) in
    fst run' = fst run
    /\ transactionId (snd run') = transactionId (snd run)
    /\ conn (snd run') = conn (snd run)
    /\ events (snd run') = map forget_event (events (snd run))
    /\ filter is_send (events (snd run')) = filter is_send (events (snd run)).
Proof.
  intros C Net T c run run'. subst run run'.
  rewrite (same_run_FujiInitSequence T c). cbn [fst snd forget_client transactionId conn events].
  repeat split. apply filter_is_send_forget.
Qed.

(** * More of the exposure bias widget *)

Section BiasDraws.

Variable Width : Z.

(** What a draw adds depends on the widget through its origin and its
    default colour only. *)
Lemma draw_bias_adds (w : Widget) (val : Z) :
  fst (drawFujiExposureBiasCompensation Width w val)
  = bias_outcome Width (origin w) (defaultColour w) val
  /\ img (snd (drawFujiExposureBiasCompensation Width w val))
     = img w ++ bias_ops Width (origin w) (defaultColour w) val
  /\ origin (snd (drawFujiExposureBiasCompensation Width w val)) = origin w
  /\ defaultColour (snd (drawFujiExposureBiasCompensation Width w val))
     = defaultColour w.
Proof.
  unfold bias_outcome, bias_ops, drawFujiExposureBiasCompensation.
  destruct (markerPosition val) as [[pos onZero] fIsZero].
  destruct (if fIsZero then set_index getBias pos rune_quote else Some getBias)
    as [ruler|].
  - destruct onZero.
    + cbn [drawMarkers].
      destruct (set_index (runes "                   ") pos rune_quote) as [m1|].
      * destruct (set_index m1 pos rune_bang) as [m2|];
          (split; [reflexivity|]); widget_fields; repeat split.
      * (split; [reflexivity|]); widget_fields; repeat split.
    + destruct (set_index (runes "                   ") pos rune_bang) as [m|];
        (split; [reflexivity|]); widget_fields; repeat split.
  - (split; [reflexivity|]); widget_fields; repeat split.
Qed.

End BiasDraws.

(** X5: a draw of the exposure bias widget does not depend on what was drawn
    before: two widgets with the same origin and the same default colour get
    the same strings added, at the same places and in the same colours, and
    the same outcome, wherever their pens are and whatever their current
    colours and images are; the draw keeps the origin and the default
    colour, so drawing the same value again adds the same strings again. *)
Theorem drawFujiExposureBiasCompensation_ignores_previous_draws :
  forall (Width : Z) (w1 w2 : Widget) (val : Z),
    origin w1 = origin w2 ->
    defaultColour w1 = defaultColour w2 ->
    let draw := drawFujiExposureBiasCompensation Width in
    fst (draw w1 val) = fst (draw w2 val)
    /\ (exists ops : list DrawOp,
          img (snd (draw w1 val)) = img w1 ++ ops
          /\ img (snd (draw w2 val)) = img w2 ++ ops
          /\ img (snd (draw (snd (draw w1 val)) val)) = (img w1 ++ ops) ++ ops)
    /\ origin (snd (draw w1 val)) = origin w1
    /\ defaultColour (snd (draw w1 val)) = defaultColour w1.
Proof.
  intros Width w1 w2 val Eo Ed draw. subst draw.
  destruct (draw_bias_adds Width w1 val) as (F1 & I1 & O1 & D1).
  destruct (draw_bias_adds Width w2 val) as (F2 & I2 & _ & _).
  destruct (draw_bias_adds Width
              (snd (drawFujiExposureBiasCompensation Width w1 val)) val)
    as (_ & I3 & _ & _).
  split; [rewrite F1, F2, Eo, Ed; reflexivity|].
  split; [|split; assumption].
  exists (bias_ops Width (origin w1) (defaultColour w1) val).
  split; [exact I1|]. split; [rewrite I2, Eo, Ed; reflexivity|].
  rewrite I3, O1, D1, I1. reflexivity.
Qed.

Lemma drawFujiExposureBiasCompensation_ignores_previous_draws_witness :
  fst (drawFujiExposureBiasCompensation 6 example_bias_widget 667)
  = fst (drawFujiExposureBiasCompensation 6
           (snd (drawFujiBattery3Bars 6 (fun v => v) 1 2 3 example_bias_widget 1)) 667).
Proof.
  exact (proj1 (drawFujiExposureBiasCompensation_ignores_previous_draws
                  6 example_bias_widget
                  (snd (drawFujiBattery3Bars 6 (fun v => v) 1 2 3 example_bias_widget 1))
                  667 eq_refl eq_refl)).
Defined.

Lemma set_index_differs {A : Type} (s s' : list A) (i : Z) (r : A) :
  set_index s i r = Some s' ->
  List.length s' = List.length s
  /\ forall j : nat, j <> Z.to_nat i -> nth_error s' j = nth_error s j.
Proof.
  intro E. split; [exact (set_index_length _ _ _ _ E)|].
  apply set_index_inv in E. destruct E as [[Lo Hi] ->].
  intros j NE.
  destruct (Nat.lt_ge_cases j (Z.to_nat i)) as [L|G].
  - rewrite nth_error_app1 by (rewrite length_firstn; lia).
    rewrite nth_error_firstn.
    apply Nat.ltb_lt in L. now rewrite L.
  - rewrite nth_error_app2 by (rewrite length_firstn; lia).
    rewrite length_firstn.
    replace (j - Nat.min (Z.to_nat i) (List.length s))%nat
      with (S (j - S (Z.to_nat i)))%nat by lia.
    cbn [nth_error]. rewrite nth_error_skipn. f_equal. lia.
Qed.

(** X6: whenever a draw of the exposure bias widget returns, the marker
    position is an index of the ruler; after the icon it has drawn the ruler
    and then one or two marker lines, all from the origin, so that they lie
    over one another; the ruler is the 19-rune scale, changed at most at the
    marker position; every marker line is 19 runes that are blank everywhere
    except at the marker position, and the last one has the marker there. *)
Theorem drawFujiExposureBiasCompensation_overlays_at_the_marker :
  forall (Width : Z) (w : Widget) (val : Z),
    fst (drawFujiExposureBiasCompensation Width w val) = Returned ->
    let pos := fst (fst (markerPosition val)) in
    0 <= pos <= 18
    /\ exists (ruler : DrawOp) (lines : list DrawOp) (last_line : DrawOp),
         img (snd (drawFujiExposureBiasCompensation Width w val))
         = img w ++ bias_icon Width w :: ruler :: lines ++ [last_line]
         /\ (List.length lines <= 1)%nat
         /\ op_dot ruler = origin w
         /\ differs_at_most_at (op_text ruler) getBias (Z.to_nat pos)
         /\ Forall (fun line =>
                      op_dot line = origin w
                      /\ differs_at_most_at (op_text line)
                           (runes "                   ") (Z.to_nat pos))
                   (lines ++ [last_line])
         /\ nth_error (op_text last_line) (Z.to_nat pos) = Some rune_bang.
Proof.
  intros Width w val Ret pos.
  pose proof (proj1 (draw_bias_returns_iff Width w val pos
                       (snd (fst (markerPosition val))) (snd (markerPosition val))
                       ltac:(subst pos; destruct (markerPosition val) as [[? ?] ?];
                             reflexivity)) Ret) as B.
  split; [exact B|].
  revert Ret. unfold drawFujiExposureBiasCompensation.
  subst pos. destruct (markerPosition val) as [[pos onZero] fIsZero].
  cbn [fst snd] in B |- *.
  assert (exists ruler,
             (if fIsZero then set_index getBias pos rune_quote else Some getBias)
             = Some ruler
             /\ differs_at_most_at ruler getBias (Z.to_nat pos)) as (ruler & -> & DR).
  { destruct fIsZero.
    - rewrite set_index_Some by (cbn; lia). eexists. split; [reflexivity|].
      apply (set_index_differs getBias _ pos rune_quote).
      apply set_index_Some. cbn; lia.
    - exists getBias. split; [reflexivity|]. split; auto. }
  destruct onZero.
  - cbn [drawMarkers].
    destruct (set_index (runes "                   ") pos rune_quote) as [m1|] eqn:K1;
      [|discriminate].
    destruct (set_index m1 pos rune_bang) as [m2|] eqn:K2; [|discriminate].
    intros _.
    pose proof (set_index_differs _ _ _ _ K1) as D1.
    pose proof (set_index_differs _ _ _ _ K2) as [L2 N2].
    refine (ex_intro _ _ (ex_intro _ [_] (ex_intro _ _ _))). widget_fields.
    split; [reflexivity|]. cbn [List.length op_dot op_text].
    split; [lia|]. split; [reflexivity|]. split; [exact DR|].
    split; [|exact (set_index_nth _ _ _ _ K2)].
    constructor; [split; [reflexivity | exact D1]|].
    constructor; [|constructor]. split; [reflexivity|].
    destruct D1 as [L1 N1]. unfold differs_at_most_at. cbn [op_text].
    split; [rewrite L2, L1; reflexivity|].
    intros j NE. rewrite N2, N1 by exact NE. reflexivity.
  - destruct (set_index (runes "                   ") pos rune_bang) as [m|] eqn:K;
      [|discriminate].
    intros _.
    refine (ex_intro _ _ (ex_intro _ [] (ex_intro _ _ _))). widget_fields.
    split; [reflexivity|]. cbn [List.length op_dot op_text app].
    split; [lia|]. split; [reflexivity|]. split; [exact DR|].
    split; [|exact (set_index_nth _ _ _ _ K)].
    constructor; [|constructor]. split; [reflexivity|].
    exact (set_index_differs _ _ _ _ K).
Qed.

Lemma drawFujiExposureBiasCompensation_overlays_witness :
  0 <= fst (fst (markerPosition 1000)) <= 18.
Proof.
  exact (proj1 (drawFujiExposureBiasCompensation_overlays_at_the_marker
                  6 example_bias_widget 1000 ltac:(vm_compute; reflexivity))).
Defined.

(** ** The marker position along the ruler *)

(** X7: the exposure bias nearest to [k] thirds of a stop, for every [k]
    from -9 to 9, is drawn at index [9 + k] of the ruler, whether the camera
    rounds the thousandths to the nearest (667) or cuts them (666); the
    marker is on zero for [k = 0] only, and on a number of the ruler when
    [k] is a multiple of 3. *)
Theorem markerPosition_on_the_third_stops :
  forall (Width : Z) (w : Widget) (k : Z),
    - 9 <= k <= 9 ->
    markerPosition (nearest_third k) = (9 + k, k =? 0, k mod 3 =? 0)
    /\ markerPosition (truncated_third k) = (9 + k, k =? 0, k mod 3 =? 0)
    /\ fst (drawFujiExposureBiasCompensation Width w (nearest_third k)) = Returned
    /\ fst (drawFujiExposureBiasCompensation Width w (truncated_third k)) = Returned.
Proof.
  intros Width w k B.
  assert (forall x,
             - 3000 <= int16 x <= 3000 ->
             markerPosition_spec (int16 x) = (9 + k, k =? 0, k mod 3 =? 0) ->
             markerPosition x = (9 + k, k =? 0, k mod 3 =? 0)
             /\ fst (drawFujiExposureBiasCompensation Width w x) = Returned) as Via.
  { intros x R S.
    destruct (markerPosition_within_three_stops x R) as [MP _].
    rewrite S in MP. split; [exact MP|].
    apply (draw_bias_returns_iff Width w x _ _ _ MP). lia. }
  assert (In k (Z_range (- 9) (Z.to_nat 19))) as I by (apply Z_range_In; lia).
  assert ((markerPosition (nearest_third k) = (9 + k, k =? 0, k mod 3 =? 0)
           /\ fst (drawFujiExposureBiasCompensation Width w (nearest_third k)) = Returned)
          /\ (markerPosition (truncated_third k) = (9 + k, k =? 0, k mod 3 =? 0)
              /\ fst (drawFujiExposureBiasCompensation Width w (truncated_third k))
                 = Returned)) as [[A1 A2] [A3 A4]].
  { cbv [Z_range Z.to_nat Pos.to_nat Pos.iter_op Nat.add seq map] in I.
    cbn [In] in I.
    repeat (destruct I as [<-|I];
            [split; apply Via; vm_compute; try reflexivity; split; discriminate|]).
    contradiction. }
  auto.
Qed.

Lemma markerPosition_on_the_third_stops_witness :
  markerPosition (nearest_third 2) = (11, false, false).
Proof.
  exact (proj1 (markerPosition_on_the_third_stops 6 example_bias_widget 2
                  ltac:(lia))).
Defined.

(** The integer reading of the position on the 6001 values within three
    stops: it is mirrored at index 9 when the value is negated, and it never
    decreases when the value grows by one. *)
Lemma markerPosition_spec_mirrored_checked :
  forallb (fun x => same_marker (markerPosition_spec (- x))
                      (18 - fst (fst (markerPosition_spec x)),
                       snd (fst (markerPosition_spec x)),
                       snd (markerPosition_spec x)))
          (Z_range (- 3000) (Z.to_nat 6001)) = true.
Proof. vm_compute. reflexivity. Qed.

Lemma markerPosition_spec_step_checked :
  forallb (fun x => fst (fst (markerPosition_spec x))
                    <=? fst (fst (markerPosition_spec (x + 1))))
          (Z_range (- 3000) (Z.to_nat 6000)) = true.
Proof. vm_compute. reflexivity. Qed.

Lemma markerPosition_spec_monotone (x y : Z) :
  - 3000 <= x -> x <= y -> y <= 3000 ->
  fst (fst (markerPosition_spec x)) <= fst (fst (markerPosition_spec y)).
Proof.
  intros Lo Le Hi.
  replace y with (x + Z.of_nat (Z.to_nat (y - x))) in * by lia.
  induction (Z.to_nat (y - x)) as [|n IH].
  - rewrite Z.add_0_r. lia.
  - pose proof markerPosition_spec_step_checked as C.
    rewrite forallb_forall in C.
    specialize (C (x + Z.of_nat n) ltac:(apply Z_range_In; lia)).
    apply Z.leb_le in C.
    replace (x + Z.of_nat (S n)) with (x + Z.of_nat n + 1) by lia.
    specialize (IH ltac:(lia) ltac:(lia)). lia.
Qed.

(** X8: within three stops the ruler is symmetric: negating the exposure
    bias mirrors the marker at index 9, the zero mark; the marker is on zero,
    or on a number of the ruler, for the one value as for the other. *)
Theorem markerPosition_is_mirrored_at_zero :
  forall val : Z,
    - 3000 <= int16 val <= 3000 ->
    fst (fst (markerPosition (- int16 val))) = 18 - fst (fst (markerPosition val))
    /\ snd (fst (markerPosition (- int16 val))) = snd (fst (markerPosition val))
    /\ snd (markerPosition (- int16 val)) = snd (markerPosition val).
Proof.
  intros val B.
  assert (int16 (- int16 val) = - int16 val) as Neg by (apply int16_small; lia).
  destruct (markerPosition_within_three_stops val B) as [MP _].
  destruct (markerPosition_within_three_stops (- int16 val)
              ltac:(rewrite Neg; lia)) as [MN _].
  rewrite Neg in MN. rewrite MP, MN.
  pose proof markerPosition_spec_mirrored_checked as C.
  rewrite forallb_forall in C.
  specialize (C (int16 val) ltac:(apply Z_range_In; lia)).
  apply same_marker_eq in C. rewrite C. cbn [fst snd]. auto.
Qed.

Lemma markerPosition_is_mirrored_at_zero_witness :
  fst (fst (markerPosition (- int16 1333))) = 18 - fst (fst (markerPosition 1333)).
Proof.
  exact (proj1 (markerPosition_is_mirrored_at_zero 1333
                  ltac:(vm_compute; split; discriminate))).
Defined.

(** X9: within three stops the marker never moves to the left when the
    exposure bias grows. *)
Theorem markerPosition_is_monotone :
  forall v1 v2 : Z,
    - 3000 <= int16 v1 ->
    int16 v1 <= int16 v2 ->
    int16 v2 <= 3000 ->
    fst (fst (markerPosition v1)) <= fst (fst (markerPosition v2)).
Proof.
  intros v1 v2 Lo Le Hi.
  destruct (markerPosition_within_three_stops v1 ltac:(lia)) as [-> _].
  destruct (markerPosition_within_three_stops v2 ltac:(lia)) as [-> _].
  now apply markerPosition_spec_monotone.
Qed.

Lemma markerPosition_is_monotone_witness :
  fst (fst (markerPosition 400)) <= fst (fst (markerPosition 401)).
Proof.
  apply markerPosition_is_monotone; vm_compute; discriminate.
Defined.

(** ** Values outside [int16] *)

Lemma int16_wraps (val k : Z) : int16 (val + 65536 * k) = int16 val.
Proof.
  unfold int16.
  replace (val + 65536 * k + 2 ^ 15) with (val + 2 ^ 15 + k * 2 ^ 16) by lia.
  now rewrite Z_mod_plus_full.
Qed.

(** X10: a draw of the exposure bias widget reads the low 16 bits of the
    value only: values that differ by a multiple of 65536 give the same
    marker position and the same draw, and every value is drawn as its
    [int16] value. *)
Theorem drawFujiExposureBiasCompensation_reads_the_low_16_bits :
  forall (Width : Z) (w : Widget) (val k : Z),
    markerPosition (val + 65536 * k) = markerPosition val
    /\ drawFujiExposureBiasCompensation Width w (val + 65536 * k)
       = drawFujiExposureBiasCompensation Width w val
    /\ drawFujiExposureBiasCompensation Width w val
       = drawFujiExposureBiasCompensation Width w (int16 val)
    /\ - 32768 <= int16 val <= 32767.
Proof.
  intros Width w val k.
  assert (markerPosition (val + 65536 * k) = markerPosition val) as M.
  { rewrite (markerPosition_int16 (val + 65536 * k)), int16_wraps.
    symmetry. apply markerPosition_int16. }
  split; [exact M|].
  unfold drawFujiExposureBiasCompensation.
  rewrite M, <- (markerPosition_int16 val).
  split; [reflexivity|]. split; [reflexivity|]. apply int16_range.
Qed.

(** ** The battery widget on any value *)

(** X11: a draw of the battery widget never panics and adds exactly one
    string, from the origin; it keeps the origin and the default colour; it
    changes the colour of the widget at level One only; and a value that is
    none of the three levels draws the empty string in the colour the widget
    has. *)
Theorem drawFujiBattery3Bars_on_any_value :
  forall (Width : Z) (FujiBatteryLevel : Z -> Z)
         (BAT_Fuji_3bOne BAT_Fuji_3bTwo BAT_Fuji_3bFull : Z)
         (w : Widget) (val : Z),
    let draw := drawFujiBattery3Bars Width FujiBatteryLevel
                  BAT_Fuji_3bOne BAT_Fuji_3bTwo BAT_Fuji_3bFull in
    fst (draw w val) = Returned
    /\ (exists s : list ascii,
          img (snd (draw w val))
          = img w ++ [mkDrawOp (origin w) (colour (snd (draw w val))) s])
    /\ origin (snd (draw w val)) = origin w
    /\ defaultColour (snd (draw w val)) = defaultColour w
    /\ (FujiBatteryLevel val <> BAT_Fuji_3bOne ->
        colour (snd (draw w val)) = colour w)
    /\ (FujiBatteryLevel val <> BAT_Fuji_3bOne ->
        FujiBatteryLevel val <> BAT_Fuji_3bTwo ->
        FujiBatteryLevel val <> BAT_Fuji_3bFull ->
        img (snd (draw w val)) = img w ++ [mkDrawOp (origin w) (colour w) []]).
Proof.
  intros Width L One Two Full w val draw. subst draw.
  unfold drawFujiBattery3Bars.
  destruct (Z.eqb_spec (L val) One) as [E1|N1];
    [|destruct (Z.eqb_spec (L val) Two) as [E2|N2];
      [|destruct (Z.eqb_spec (L val) Full) as [E3|N3]]];
    widget_fields;
    (split; [reflexivity|]); (split; [eexists; reflexivity|]);
    (split; [reflexivity|]); (split; [reflexivity|]);
    split; intros; try reflexivity; contradiction.
Qed.

(** * The commands *)

Section CommandProperties.

Variable formatDeviceProperty : string -> error + Z.
Variable HexStringToUint64 : string -> Z -> error + Z.
Variable InitiateCapture : error + list Z.
Variable WriteFile : string -> list Z -> Z -> option error.
Variable SetDeviceProperty : Z -> Z -> option error.
Variable OperationRequestRaw : Z -> list Z -> error + list (list Z).
Variable fmt_hex : Z -> string.
Variable fmt_dec : Z -> string.
Variable hex_Dump : list Z -> string.

Lemma opreq_params_inr (params : list string) (p : list Z) :
  opreq_params HexStringToUint64 params = inr p ->
  Forall2 (fun param v =>
             exists conv, HexStringToUint64 param 64 = inr conv /\ v = uint32 conv)
          params p.
Proof.
  revert p. induction params as [|param rest IH]; intros p E; cbn in E.
  - inversion E. constructor.
  - destruct (HexStringToUint64 param 64) as [err|conv] eqn:C; [discriminate|].
    destruct (opreq_params HexStringToUint64 rest) as [err|p'] eqn:R; [discriminate|].
    inversion E. constructor; [eauto | apply IH; reflexivity].
Qed.

End CommandProperties.

(** X12: [set] writes to the device only when both of its words were
    understood: it calls [SetDeviceProperty] at most once, and only with the
    property code that [formatDeviceProperty] gave for the first word and the
    low 32 bits of the value parsed from the second; words after the second
    are ignored. It panics with an index out of range exactly when it is
    given no word, or one word that names a property. *)
Theorem set_writes_only_what_it_parsed :
  forall (formatDeviceProperty : string -> error + Z)
         (HexStringToUint64 : string -> Z -> error + Z)
         (SetDeviceProperty : Z -> Z -> option error)
         (fmt_hex : Z -> string) (f : list string),
    let run := set formatDeviceProperty HexStringToUint64 SetDeviceProperty fmt_hex in
    (snd (run f) = []
     \/ exists f0 f1 rest cod val,
          f = f0 :: f1 :: rest
          /\ formatDeviceProperty f0 = inr cod
          /\ HexStringToUint64 f1 32 = inr val
          /\ snd (run f) = [did_SetDeviceProperty cod (uint32 val)])
    /\ (fst (run f) = reply_index_out_of_range
        <-> f = [] \/ exists f0 cod, f = [f0] /\ formatDeviceProperty f0 = inr cod)
    /\ (forall f0 f1 rest, run (f0 :: f1 :: rest) = run [f0; f1]).
Proof.
  intros fDP Hex SDP fmt_hex f run. subst run. unfold set.
  split; [|split].
  - destruct f as [|f0 [|f1 rest]]; [left; reflexivity | |].
    + destruct (fDP f0); left; reflexivity.
    + destruct (fDP f0) as [e|cod] eqn:P; [left; reflexivity|].
      destruct (Hex f1 32) as [e|val] eqn:V; [left; reflexivity|].
      right. exists f0, f1, rest, cod, val.
      destruct (SDP cod (uint32 val)); auto.
  - destruct f as [|f0 [|f1 rest]].
    + split; auto.
    + destruct (fDP f0) as [e|cod] eqn:P; cbn [fst].
      * split; [discriminate|].
        intros [E|(g & cod & E & P')]; [discriminate|].
        inversion E; subst g. congruence.
      * split; [|reflexivity]. intros _. right. eauto.
    + split.
      * destruct (fDP f0); [discriminate|].
        destruct (Hex f1 32); [discriminate|].
        destruct (SDP _ _); discriminate.
      * intros [E|(g & cod & E & _)]; discriminate.
  - intros f0 f1 rest. reflexivity.
Qed.

(** X13: [opreq] sends an operation request only when the operation code and
    every parameter were understood: it calls [OperationRequestRaw] at most
    once, with the low 16 bits of the code and the parameters in the order
    given, each cut to its low 32 bits. When a parameter is not understood
    nothing is sent and the reply carries the error of the first such
    parameter. Without a word it panics with an index out of range, and a
    request answered without data packets has the empty reply. *)
Theorem opreq_sends_only_what_it_parsed :
  forall (HexStringToUint64 : string -> Z -> error + Z)
         (OperationRequestRaw : Z -> list Z -> error + list (list Z))
         (fmt_dec : Z -> string) (hex_Dump : list Z -> string) (f : list string),
    let run := opreq HexStringToUint64 OperationRequestRaw fmt_dec hex_Dump in
    (snd (run f) = []
     \/ exists f0 params cod p,
          f = f0 :: params
          /\ HexStringToUint64 f0 16 = inr cod
          /\ Forall2 (fun param v =>
                        exists conv,
                          HexStringToUint64 param 64 = inr conv /\ v = uint32 conv)
                     params p
          /\ snd (run f) = [did_OperationRequestRaw (uint16 cod) p])
    /\ (forall f0 cod good param bad err,
          HexStringToUint64 f0 16 = inr cod ->
          Forall (fun s => exists conv, HexStringToUint64 s 64 = inr conv) good ->
          HexStringToUint64 param 64 = inl err ->
          run (f0 :: good ++ param :: bad)
          = (Replied ("opreq error: " ++ Error err ++ nl)%string, []))
    /\ (fst (run f) = reply_index_out_of_range <-> f = [])
    /\ (forall f0 params cod p,
          f = f0 :: params ->
          HexStringToUint64 f0 16 = inr cod ->
          opreq_params HexStringToUint64 params = inr p ->
          OperationRequestRaw (uint16 cod) p = inr [] ->
          fst (run f) = Replied ""%string).
Proof.
  intros Hex ORR fmt_dec hex_Dump f run. subst run. unfold opreq.
  split; [|split; [|split]].
  - destruct f as [|f0 params]; [left; reflexivity|].
    destruct (Hex f0 16) as [e|cod] eqn:C; [left; reflexivity|].
    destruct (opreq_params Hex params) as [e|p] eqn:P; [left; reflexivity|].
    right. exists f0, params, cod, p.
    split; [reflexivity|]. split; [exact C|].
    split; [exact (opreq_params_inr Hex params p P)|].
    destruct (ORR (uint16 cod) p); reflexivity.
  - intros f0 cod good param bad err C G B. rewrite C.
    assert (opreq_params Hex (good ++ param :: bad) = inl err) as ->; [|reflexivity].
    induction G as [|s good (conv & S) G IH]; cbn.
    + now rewrite B.
    + now rewrite S, IH.
  - destruct f as [|f0 params]; [split; reflexivity|].
    split; [|discriminate].
    destruct (Hex f0 16); [discriminate|].
    destruct (opreq_params Hex params); [discriminate|].
    destruct (ORR _ _); discriminate.
  - intros f0 params cod p -> C P D. now rewrite C, P, D.
Qed.

(** X14: [capture] never panics and always asks the camera for exactly one
    capture, first. It writes a file only when the capture succeeded and it
    was given exactly one word: then it writes once, the bytes of the
    capture unchanged, to the file of that name, with the permissions 0644.
    With no word, or with two or more, nothing is written. *)
Theorem capture_writes_only_one_named_file :
  forall (InitiateCapture : error + list Z)
         (WriteFile : string -> list Z -> Z -> option error) (f : list string),
    let run := capture InitiateCapture WriteFile in
    fst (run f) <> reply_index_out_of_range
    /\ (snd (run f) = [did_InitiateCapture]
        \/ exists name res,
             f = [name]
             /\ InitiateCapture = inr res
             /\ snd (run f) = [did_InitiateCapture; did_WriteFile name res 420])
    /\ (forall name res,
          f = [name] -> InitiateCapture = inr res ->
          snd (run f) = [did_InitiateCapture; did_WriteFile name res 420])
    /\ (List.length f <> 1%nat -> snd (run f) = [did_InitiateCapture])
    /\ (forall err, InitiateCapture = inl err ->
          run f = (Replied (Error err), [did_InitiateCapture])).
Proof.
  intros IC WF f run. subst run. unfold capture.
  destruct IC as [err|res].
  - split; [discriminate|]. split; [left; reflexivity|].
    split; [discriminate|]. split; [reflexivity|].
    intros e E. inversion E. reflexivity.
  - destruct f as [|f0 [|f1 rest]].
    + split; [discriminate|]. split; [left; reflexivity|].
      split; [discriminate|]. split; [reflexivity | discriminate].
    + destruct (WF f0 res 420) eqn:W;
        (split; [discriminate|]);
        (split; [right; exists f0, res; auto|]);
        (split; [intros name r E R; inversion E; inversion R; reflexivity|]);
        (split; [intro N; contradiction N; reflexivity | discriminate]).
    + split; [discriminate|]. split; [left; reflexivity|].
      split; [discriminate|]. split; [reflexivity | discriminate].
Qed.

(** * The order of the calls of [main] *)


(** * The payload of the Fuji InitCommandRequest packet, read back *)

(** X16: the payload of a Fuji InitCommandRequest packet with a 16-byte GUID
    and a 32-bit protocol version can be read back: its first four bytes,
    least significant first, are the protocol version, the next sixteen are
    the GUID and the rest is the friendly name as the serializer writes a
    string; every byte written for the version is a byte; and
    [SetProtocolVersion] changes the first four bytes only. *)
Theorem FujiInitCommandRequestPacket_payload_reads_back :
  forall (MarshalString : string -> list Z)
         (ficrp : FujiInitCommandRequestPacket.t) (pv : Z),
    0 <= FujiInitCommandRequestPacket.ProtocolVersion ficrp < 2 ^ 32 ->
    List.length (FujiInitCommandRequestPacket.GUID ficrp) = 16%nat ->
    let payload := FujiInitCommandRequestPacket_Payload MarshalString ficrp in
    le_value (firstn 4 payload) = FujiInitCommandRequestPacket.ProtocolVersion ficrp
    /\ firstn 16 (skipn 4 payload) = FujiInitCommandRequestPacket.GUID ficrp
    /\ skipn 20 payload
       = MarshalString (FujiInitCommandRequestPacket.FriendlyName ficrp)
    /\ Forall is_byte (firstn 4 payload)
    /\ List.length payload
       = (20 + List.length
                 (MarshalString (FujiInitCommandRequestPacket.FriendlyName ficrp)))%nat
    /\ skipn 4 (FujiInitCommandRequestPacket_Payload MarshalString
                  (FujiInitCommandRequestPacket.SetProtocolVersion ficrp pv))
       = skipn 4 payload.
Proof.
  intros MS p pv V G payload. subst payload.
  unfold FujiInitCommandRequestPacket_Payload, MarshalLittleEndian.
  destruct p as [v g name].
  cbn [FujiInitCommandRequestPacket.ProtocolVersion
       FujiInitCommandRequestPacket.GUID
       FujiInitCommandRequestPacket.FriendlyName
       FujiInitCommandRequestPacket.SetProtocolVersion] in *.
  assert (forall x rest, firstn 4 (le_bytes 4 x ++ rest) = le_bytes 4 x) as F4.
  { intros x rest. apply firstn_app_exact. apply le_bytes_length. }
  assert (forall x rest, skipn 4 (le_bytes 4 x ++ rest) = rest) as S4.
  { intros x rest. rewrite skipn_app, le_bytes_length, Nat.sub_diag.
    rewrite skipn_all2 by (rewrite le_bytes_length; lia). reflexivity. }
  split; [|split; [|split; [|split; [|split]]]].
  - rewrite F4, le_value_le_bytes. apply Z.mod_small.
    change (256 ^ Z.of_nat 4) with (2 ^ 32). exact V.
  - rewrite S4. apply firstn_app_exact. exact G.
  - change 20%nat with (16 + 4)%nat. rewrite <- skipn_skipn, S4.
    rewrite skipn_app, G, Nat.sub_diag.
    rewrite skipn_all2 by lia. reflexivity.
  - rewrite F4. apply le_bytes_are_bytes.
  - rewrite !length_app, le_bytes_length, G. lia.
  - now rewrite !S4.
Qed.

Lemma FujiInitCommandRequestPacket_payload_reads_back_witness :
  le_value (firstn 4 (FujiInitCommandRequestPacket_Payload (fun _ => [0; 0])
                        (NewFujiInitCommandRequestPacket example_guid "")))
  = 0x8F53E4F2.
Proof.
  exact (proj1 (FujiInitCommandRequestPacket_payload_reads_back
                  (fun _ => [0; 0])
                  (NewFujiInitCommandRequestPacket example_guid "") 0
                  ltac:(vm_compute; split; [discriminate | reflexivity])
                  eq_refl)).
Defined.
